(** * Dashboard.py: the data pipeline of the stock dashboard

    A shallow embedding of the functions of [Dashboard.py] that compute
    ([load_data], [format_number], [get_stock_highs],
    [create_sector_chart], [create_stock_card], [get_latest_stock_data])
    and of the search view of [main], followed by the properties proved of
    them.

    Conventions.
    - A Python [str] is a [string]: the bytes of its UTF-8 encoding.
      Substring replacement and lexicographic comparison agree on code
      points and on UTF-8 bytes.  The regular expression class [\d] and
      [str.strip] are taken on ASCII; fields holding non-ASCII decimal
      digits or white space are outside the model.  [len] and slicing count
      code points, that is, the bytes that do not continue a sequence.
    - A float64 is a [spec_float] of the binary64 format; [S754_nan] is
      pandas' missing value.
    - A datetime64 cell is an [option Z] (nanoseconds); [None] is [NaT].
    - [load_data] works on a frame as a map from column labels to columns,
      since the columns it finds are the question.  The two aggregations
      work on a table as the list of its rows, each row holding the
      thirteen columns of the input file with the types the loader leaves
      them in; where Symbol cells may be missing, each row carries a flag
      for that ([frame_row]).
    - Library functions whose behaviour the repository does not fix
      (Python's [float()] and [str()] of a float, pandas' CSV reader, date
      parser and numeric parser, [astype(str)] on a cell that is not text,
      [str.upper], [strftime], numpy's default [argsort]) are parameters.  Streamlit's calls are recorded as the
      events of a page; a plotly figure is the arguments the code passes
      to plotly.
      [st.cache_data] only memoises [load_data] and is left out. *)

From Stdlib Require Import ZArith Bool Lia Strings.Ascii.
From Stdlib Require Import Sorting.Sorted.
From Stdlib Require Import Floats.SpecFloat.
From stdpp Require Import base option list sorting strings pretty gmap.

Local Open Scope Z_scope.

(** ** Binary64 floats *)

Module F64.

Definition float : Type := spec_float.

Definition prec : Z := 53.
Definition emax : Z := 1024.

Definition nan : float := S754_nan.
Definition neg_inf : float := S754_infinity true.

Definition is_nan (x : float) : bool :=
  match x with S754_nan => true | _ => false end.

Definition eqb : float -> float -> bool := SFeqb.
Definition leb : float -> float -> bool := SFleb.
Definition div : float -> float -> float := SFdiv prec emax.

(** The float nearest to an integer (ties to even); an integer beyond the
    largest finite float gives an infinity. *)
Definition of_Z (z : Z) : float := binary_normalize prec emax z 0 false.

(** The float nearest to [m * 2^e]. *)
Definition of_dyadic (m e : Z) : float := binary_normalize prec emax m e false.

(** [x >= y] as Python and numpy evaluate it: false when either is NaN. *)
Definition geb (x y : float) : bool := leb y x.

(** *** Fixed-point rendering

    [round_half_even_div n d] is the integer nearest to [n / d] for
    [d > 0], ties going to the even one: the rounding of Python's float
    formatting, which works on the exact binary value. *)
Definition round_half_even_div (n d : Z) : Z :=
  let q := n / d in
  let r := n mod d in
  match (2 * r) ?= d with
  | Lt => q
  | Gt => q + 1
  | Eq => if Z.even q then q else q + 1
  end.

(** The magnitude of [m * 2^e] in hundredths, rounded. *)
Definition hundredths (m : positive) (e : Z) : Z :=
  match e with
  | Zneg p => round_half_even_div (Zpos m * 100) (2 ^ Zpos p)
  | _ => Zpos m * 100 * 2 ^ e
  end.

Definition two_digits (n : Z) : string :=
  if n <? 10 then "0" +:+ pretty (Z.to_N n) else pretty (Z.to_N n).

(** Python's [','] option: the digits of the integer part in groups of
    three, counted from the right. *)
Fixpoint group3 (rev_digits : list ascii) : list ascii :=
  match rev_digits with
  | a :: b :: c :: ((_ :: _) as rest) => a :: b :: c :: "," %char :: group3 rest
  | _ => rev_digits
  end.

Definition thousands (digits : string) : string :=
  String.string_of_list_ascii (rev (group3 (rev (String.list_ascii_of_string digits)))).

Definition sign_string (s : bool) : string := if s then "-" else "".

(** [format(x, '.2f')] when [comma] is false, [format(x, ',.2f')] when it
    is true. *)
Definition format_2f (comma : bool) (x : float) : string :=
  let int_part n := if comma then thousands (pretty (Z.to_N n)) else pretty (Z.to_N n) in
  match x with
  | S754_nan => "nan"
  | S754_infinity s => sign_string s +:+ "inf"
  | S754_zero s => sign_string s +:+ "0.00"
  | S754_finite s m e =>
      let h := hundredths m e in
      sign_string s +:+ int_part (h / 100) +:+ "." +:+ two_digits (h mod 100)
  end.

End F64.

(** ** Python strings *)

Module Str.

(** [s.startswith(p)] *)
Fixpoint startswith (p s : string) : bool :=
  match p, s with
  | EmptyString, _ => true
  | String a p', String b s' => if decide (a = b) then startswith p' s' else false
  | String _ _, EmptyString => false
  end.

(** [s.replace(old, new)] for a non-empty [old] (every call in the source
    passes a non-empty literal): occurrences are replaced from the left and
    do not overlap.  [skip] counts the bytes of the current occurrence that
    are still to be dropped. *)
Fixpoint replace_go (old new : string) (skip : nat) (s : string) : string :=
  match s with
  | EmptyString => EmptyString
  | String c s' =>
      match skip with
      | S k => replace_go old new k s'
      | O =>
          if startswith old s
          then new +:+ replace_go old new (String.length old - 1) s'
          else String c (replace_go old new 0 s')
      end
  end.

Definition replace (old new s : string) : string := replace_go old new 0 s.

(** ASCII white space as [str.isspace] has it. *)
Definition is_space (c : ascii) : bool :=
  let n := nat_of_ascii c in
  ((9 <=? n) && (n <=? 13) || (28 <=? n) && (n <=? 32))%nat.

Fixpoint lstrip (s : string) : string :=
  match s with
  | String c s' => if is_space c then lstrip s' else s
  | EmptyString => EmptyString
  end.

Definition rstrip (s : string) : string := String.rev (lstrip (String.rev s)).

(** [s.strip()] *)
Definition strip (s : string) : string := rstrip (lstrip s).

(** [\d] *)
Definition is_digit (c : ascii) : bool :=
  let n := nat_of_ascii c in ((48 <=? n) && (n <=? 57))%nat.

(** The longest prefix of digits, and what follows it. *)
Fixpoint span_digits (s : string) : string * string :=
  match s with
  | String c s' =>
      if is_digit c
      then let '(d, rest) := span_digits s' in (String c d, rest)
      else (EmptyString, s)
  | EmptyString => (EmptyString, EmptyString)
  end.

(** What the optional group [(?:\.\d+)?] takes from [rest]: a dot and the
    digits after it when there is at least one, nothing otherwise. *)
Definition fraction (rest : string) : string :=
  match rest with
  | String c rest' =>
      if decide (c = "."%char) then
        match span_digits rest' with
        | (EmptyString, _) => EmptyString
        | (d', _) => String "." d'
        end
      else EmptyString
  | EmptyString => EmptyString
  end.

(** The match of [\d+(?:\.\d+)?] that starts at the first byte of [s];
    both repetitions are greedy. *)
Definition match_number (s : string) : option string :=
  match span_digits s with
  | (EmptyString, _) => None
  | (d, rest) => Some (d +:+ fraction rest)
  end.

(** [re.search(r'(\d+(?:\.\d+)?)', s)]: the leftmost match, [None] when the
    pattern matches nowhere. *)
Fixpoint search_number (s : string) : option string :=
  match match_number s with
  | Some m => Some m
  | None =>
      match s with
      | String _ s' => search_number s'
      | EmptyString => None
      end
  end.

End Str.

(** The currency literal as the source file spells it at lines 118, 122,
    139, 141, 143, 145 and 147: seven bytes, the code points U+201A,
    U+00C7 and U+03C0. *)
Definition glyph : string := "‚Çπ".

(** The rupee sign U+20B9, three bytes. *)
Definition rupee_sign : string := "₹".

(** ** Python values and exceptions *)

Inductive exn : Type :=
  | ValueError
  | TypeError
  | OverflowError
  | KeyError (key : string)
  | OtherError (class : string) (* any other exception, by its class *).

(** A computation that returns an [A] or raises. *)
Definition result (A : Type) : Type := exn + A.

Definition ret {A} (x : A) : result A := inr x.
Definition raise {A} (e : exn) : result A := inl e.
Definition bind {A B} (m : result A) (k : A -> result B) : result B :=
  match m with
  | inl e => inl e
  | inr x => k x
  end.

Notation "'do' x <- m ; k" := (bind m (fun x => k))
  (at level 10, x name, m at level 100, k at level 200).

(** The values [format_number] is called with: a cell of a frame or the
    default of [row.get]. *)
Inductive pyval : Type :=
  | PyNone
  | PyInt (z : Z)
  | PyFloat (x : F64.float)
  | PyStr (s : string).

(** [pd.isna] on a scalar. *)
Definition pd_isna (v : pyval) : bool :=
  match v with
  | PyNone => true
  | PyFloat x => F64.is_nan x
  | _ => false
  end.

(** [float(z)]: the nearest float, [OverflowError] beyond the finite range. *)
Definition float_of_int (z : Z) : result F64.float :=
  match F64.of_Z z with
  | S754_infinity _ => raise OverflowError
  | x => ret x
  end.

(** [num >= c] for a float literal [c] whose value is the integer [c]:
    Python compares an [int] with a float by exact value. *)
Definition py_ge (num : pyval) (c : Z) : result bool :=
  match num with
  | PyInt z => ret (c <=? z)
  | PyFloat x => ret (F64.geb x (F64.of_Z c))
  | _ => raise TypeError
  end.

Definition py_float (num : pyval) : result F64.float :=
  match num with
  | PyInt z => float_of_int z
  | PyFloat x => ret x
  | _ => raise TypeError
  end.

(** [num / c] *)
Definition py_truediv (num : pyval) (c : Z) : result F64.float :=
  do x <- py_float num; ret (F64.div x (F64.of_Z c)).

(** ** The formatter (lines 133-149) *)

Section Formatter.

(** Python's [float] on a [str]: [None] when it raises [ValueError]. *)
Variable float_of_str : string -> option F64.float.

(** Lines 138-139. *)
Definition parse_if_str (num : pyval) : result pyval :=
  match num with
  | PyStr s =>
      match float_of_str (Str.strip (Str.replace "," "" (Str.replace glyph "" s))) with
      | Some x => ret (PyFloat x)
      | None => raise ValueError
      end
  | _ => ret num
  end.

(** Lines 140-147. *)
Definition scale (num : pyval) : result string :=
  do b9 <- py_ge num (10 ^ 9);
  if b9 then do x <- py_truediv num (10 ^ 9); ret (glyph +:+ F64.format_2f false x +:+ "B")
  else
    do b7 <- py_ge num (10 ^ 7);
    if b7 then do x <- py_truediv num (10 ^ 7); ret (glyph +:+ F64.format_2f false x +:+ "Cr")
    else
      do b5 <- py_ge num (10 ^ 5);
      if b5 then do x <- py_truediv num (10 ^ 5); ret (glyph +:+ F64.format_2f false x +:+ "L")
      else do x <- py_float num; ret (glyph +:+ F64.format_2f true x).

(** The body of the [try]. *)
Definition format_number_try (num : pyval) : result string :=
  if pd_isna num then ret "N/A"
  else do num <- parse_if_str num; scale num.

(** [format_number]: [ValueError] and [TypeError] are caught, anything
    else propagates. *)
Definition format_number (num : pyval) : result string :=
  match format_number_try num with
  | inl ValueError | inl TypeError => ret "N/A"
  | r => r
  end.

End Formatter.

(** ** Sorting a frame by one column

    [DataFrame.sort_values(by)] with a single key and the default
    [kind='quicksort'] calls numpy's [argsort] on the keys that are not
    missing.  numpy's quicksort promises an index list that puts the keys
    in order and nothing about the order of equal keys, so the algorithm is
    a parameter that comes with exactly that promise. *)

Definition key_at (ks : list Z) (i : nat) : Z := default 0 (ks !! i).

Record Argsort : Type := {
  argsort : list Z -> list nat;
  argsort_perm : forall ks, argsort ks ≡ₚ seq 0 (length ks);
  argsort_sorted : forall ks, Sorted Z.le (key_at ks <$> argsort ks)
}.

(** Positional selection, [df.iloc[idx]]. *)
Definition iloc {A} (l : list A) (idx : list nat) : list A :=
  omap (fun i => l !! i) idx.

Definition sort_by {A} (S : Argsort) (key : A -> Z) (l : list A) : list A :=
  iloc l (argsort S (key <$> l)).

(** [sort_values(by, ascending)] on one column whose cells may be missing
    (pandas' [nargsort]): the rows with a key are sorted, through a reversal
    before and after when descending; the rows without one follow
    ([na_position='last']) in their original order. *)
Definition sort_values {A} (S : Argsort) (key : A -> option Z)
    (ascending : bool) (df : list A) : list A :=
  let non_nans := filter (fun x => is_Some (key x)) df in
  let nans := filter (fun x => key x = None) df in
  let k x := default 0 (key x) in
  (if ascending then sort_by S k non_nans
   else reverse (sort_by S k (reverse non_nans))) ++ nans.

(** The order [sort_values] establishes on keys. *)
Definition key_le (ascending : bool) (a b : option Z) : Prop :=
  match a, b with
  | Some x, Some y => if ascending then x <= y else y <= x
  | _, None => True
  | None, Some _ => False
  end.

(** ** Rows of the loaded table *)

Record row : Type := {
  Date : option Z;              (* Today's Date *)
  Symbol : string;
  LTP : F64.float;
  pct_chng : F64.float;         (* %chng *)
  Sector : option string;
  Industry : option string;
  Market_Cap : F64.float;
  ROE : F64.float;
  ROCE : F64.float;
  PE_Ratio : F64.float;         (* P/E Ratio *)
  Book_Value : F64.float;
  Dividend_Yield : F64.float;
  About : option string
}.

Global Instance float_eq_dec : EqDecision F64.float.
Proof. unfold F64.float. solve_decision. Defined.

Global Instance row_eq_dec : EqDecision row.
Proof. solve_decision. Defined.

(** [df.empty] *)
Definition empty {A} (df : list A) : bool :=
  match df with [] => true | _ => false end.

(** ** Running highs (lines 151-160) *)

(** [np.maximum] on two floats: a NaN on either side gives NaN, and of two
    equal values (the two zeros, for one) the second is the result. *)
Definition np_maximum (a b : F64.float) : F64.float :=
  if F64.geb b a || F64.is_nan b then b else a.

(** [ufunc.accumulate]: the running folds of [f]. *)
Fixpoint accumulate_from (f : F64.float -> F64.float -> F64.float)
    (acc : F64.float) (l : list F64.float) : list F64.float :=
  match l with
  | [] => []
  | x :: l' => let acc' := f acc x in acc' :: accumulate_from f acc' l'
  end.

Definition accumulate (f : F64.float -> F64.float -> F64.float)
    (l : list F64.float) : list F64.float :=
  match l with
  | [] => []
  | x :: l' => x :: accumulate_from f x l'
  end.

(** [Series.cummax()] on a float column (pandas' [na_accum_func] with
    [skipna=True]): NaN cells are masked by minus infinity, the running
    maximum is taken, and the masked cells are set back to NaN. *)
Definition cummax (values : list F64.float) : list F64.float :=
  let vals := (fun v => if F64.is_nan v then F64.neg_inf else v) <$> values in
  let result := accumulate np_maximum vals in
  zip_with (fun v r => if F64.is_nan v then F64.nan else r) values result.

(** [get_stock_highs]: each returned row comes with its [High_LTP] cell.
    The column-less [pd.DataFrame()] of the last line is the empty list. *)
Definition get_stock_highs (S : Argsort) (data : list row) (symbol : string)
    : list (row * F64.float) :=
  if bool_decide (symbol <> "") then
    let stock_data := filter (fun r => Symbol r = symbol) data in
    if negb (empty stock_data) then
      let stock_data := sort_values S Date true stock_data in
      let High_LTP := cummax (LTP <$> stock_data) in
      filter (fun rh => F64.eqb (LTP rh.1) rh.2 = true) (zip stock_data High_LTP)
    else []
  else [].

(** ** Latest snapshot per symbol (lines 253-258) *)

(** [Series.value_counts().to_dict()] *)
Definition value_counts (symbols : list string) : gmap string nat :=
  foldr (fun s m => <[s := S (default 0%nat (m !! s))]> m) ∅ symbols.

(** The place of a date among others when sorting descending with [NaT]
    last. *)
Definition date_desc (a b : option Z) : comparison :=
  match a, b with
  | Some x, Some y => y ?= x
  | Some _, None => Lt
  | None, Some _ => Gt
  | None, None => Eq
  end.

(** The same for a float column, NaN last. *)
Definition float_desc (a b : F64.float) : comparison :=
  match SFcompare b a with
  | Some c => c
  | None =>
      match F64.is_nan a, F64.is_nan b with
      | false, true => Lt
      | true, false => Gt
      | _, _ => Eq
      end
  end.

(** [r1] may stand before [r2] in
    [sort_values(["Today's Date", '%chng'], ascending=[False, False])]. *)
Definition latest_first (r1 r2 : row) : bool :=
  match date_desc (Date r1) (Date r2) with
  | Lt => true
  | Gt => false
  | Eq => match float_desc (pct_chng r1) (pct_chng r2) with Gt => false | _ => true end
  end.

(** A stable sort: with several keys pandas sorts through [np.lexsort],
    which keeps the order of rows that agree on every key. *)
Fixpoint insert_row {A} (le : A -> A -> bool) (x : A) (l : list A) : list A :=
  match l with
  | [] => [x]
  | y :: l' => if le x y then x :: l else y :: insert_row le x l'
  end.

Definition stable_sort {A} (le : A -> A -> bool) (l : list A) : list A :=
  foldr (insert_row le) [] l.

(** The first cell of a column that is not missing, as [GroupBy.first()]
    picks it; missing when there is none. *)
Definition first_float (col : list F64.float) : F64.float :=
  default F64.nan (head (filter (fun x => F64.is_nan x = false) col)).

Definition first_some {A} (col : list (option A)) : option A :=
  mjoin (head (filter is_Some col)).

(** One row of [groupby('Symbol').first()]: column by column. *)
Definition group_first (symbol : string) (group : list row) : row :=
  {| Symbol := symbol;
     Date := first_some (Date <$> group);
     LTP := first_float (LTP <$> group);
     pct_chng := first_float (pct_chng <$> group);
     Sector := first_some (Sector <$> group);
     Industry := first_some (Industry <$> group);
     Market_Cap := first_float (Market_Cap <$> group);
     ROE := first_float (ROE <$> group);
     ROCE := first_float (ROCE <$> group);
     PE_Ratio := first_float (PE_Ratio <$> group);
     Book_Value := first_float (Book_Value <$> group);
     Dividend_Yield := first_float (Dividend_Yield <$> group);
     About := first_some (About <$> group) |}.

(** The group keys in ascending order ([sort=True]). *)
Definition group_keys (df : list row) : list string :=
  merge_sort String.le (remove_dups (Symbol <$> df)).

(** [df.groupby('Symbol').first().reset_index()] *)
Definition groupby_first (df : list row) : list row :=
  (fun s => group_first s (filter (fun r => Symbol r = s) df)) <$> group_keys df.

(** Lines 255-257: the latest rows with their [count] cell; a symbol the
    dictionary lacks would get a missing count. *)
Definition latest_data (filtered_data : list row) : list (row * option nat) :=
  let stock_counts := value_counts (Symbol <$> filtered_data) in
  let latest := groupby_first (stable_sort latest_first filtered_data) in
  (fun r => (r, stock_counts !! Symbol r)) <$> latest.

Definition count_key (rc : row * option nat) : option Z := Z.of_nat <$> rc.2.

Definition get_latest_stock_data (S : Argsort) (filtered_data : list row)
    : list (row * option nat) :=
  sort_values S count_key false (latest_data filtered_data).

(** *** A table with missing symbols

    A Symbol cell can be missing: from pandas 3 on the loader leaves a
    missing cell missing (see [clean_symbol] below).  A row of such a table
    is a [row] with a flag for its Symbol cell; where the flag is set the
    [Symbol] of the row is of no account. *)
Record frame_row : Type := {
  frame_cells : row;
  symbol_isna : bool
}.

(** [df['Symbol']] *)
Definition symbol_column (df : list frame_row) : list (option string) :=
  (fun fr => if symbol_isna fr then None else Some (Symbol (frame_cells fr))) <$> df.

(** The rows that have a symbol. *)
Definition dropna_symbol (df : list frame_row) : list row :=
  frame_cells <$> filter (fun fr => symbol_isna fr = false) df.

(** [get_latest_stock_data] on such a table: [value_counts] at line 255
    counts no missing key and [groupby] at line 256 forms no group for it
    (both have [dropna=True]), so the rows without a symbol take no
    part. *)
Definition get_latest_stock_data_na (S : Argsort) (filtered_data : list frame_row)
    : list (row * option nat) :=
  get_latest_stock_data S (dropna_symbol filtered_data).

(** ** The loader (lines 103-131) *)

(** A cell of a frame. *)
Inductive cell : Type :=
  | Text (s : string)
  | Num (x : F64.float)
  | Int (z : Z)
  | Time (t : option Z).

(** A frame as the loader sees it: its columns by label.
    [pd.DataFrame()] is the empty map. *)
Abbreviation DataFrame := (gmap string (list cell)).

(** A call of [st.error] with the message built from an exception. *)
Inductive st_call : Type :=
  | st_error (e : exn).

(** [df[col]] *)
Definition getitem (df : DataFrame) (col : string) : result (list cell) :=
  match df !! col with
  | Some cells => ret cells
  | None => raise (KeyError col)
  end.

Definition numeric_columns : list string :=
  ["ROE"; "ROCE"; "P/E Ratio"; "Book Value"; "Dividend Yield"].

Section Loader.

(** [pd.read_csv]: the frame read from a path, or what it raises. *)
Variable read_csv : string -> result DataFrame.
(** [pd.to_datetime] on a column: a timestamp ([NaT] for a missing cell) per
    cell, or what it raises when a cell does not parse. *)
Variable to_datetime : list cell -> result (list (option Z)).
(** The parse of one string by [pd.to_numeric]; [None] when the string is
    not a number. *)
Variable to_numeric : string -> option F64.float.
(** The text [astype(str)] makes of a cell that is not already a string;
    [None] where it leaves the cell missing, as it does with a missing cell
    from pandas 3 on (earlier versions make it the text "nan"). *)
Variable repr : cell -> option string.
(** [str.upper] *)
Variable str_upper : string -> string.

(** One cell under [astype(str)]. *)
Definition astype_str (c : cell) : option string :=
  match c with
  | Text s => Some s
  | _ => repr c
  end.

(** One cell under [astype(str)], string methods and [to_numeric]: a cell
    that [astype] leaves missing stays missing all the way. *)
Definition numeric_cell (parse : string -> F64.float) (c : cell) : cell :=
  Num (from_option parse F64.nan (astype_str c)).

(** One cell under [pd.to_numeric(..., errors='coerce')]. *)
Definition to_numeric_coerce (s : string) : F64.float :=
  default F64.nan (to_numeric s).

(** Lines 111-112 on one cell. *)
Definition parse_percent (s : string) : F64.float :=
  to_numeric_coerce (Str.strip (Str.replace "%" "" s)).

(** Lines 118-119 on one cell. *)
Definition parse_ratio (s : string) : F64.float :=
  to_numeric_coerce (Str.replace glyph "" (Str.replace "%" "" s)).

(** Lines 122-123 on one cell: [str.extract] leaves a missing cell where
    the pattern does not match, and [to_numeric] keeps it missing. *)
Definition parse_market_cap (s : string) : F64.float :=
  match Str.search_number (Str.replace "," "" (Str.replace glyph "" s)) with
  | Some number => to_numeric_coerce number
  | None => F64.nan
  end.

(** Line 126 on one cell; a missing cell of a string column is NaN. *)
Definition clean_symbol (c : cell) : cell :=
  match astype_str c with
  | Some s => Text (str_upper (Str.strip s))
  | None => Num F64.nan
  end.

(** The body of the loop at lines 116-119. *)
Definition clean_ratio_column (df : DataFrame) (col : string) : DataFrame :=
  match df !! col with
  | Some cells => <[col := numeric_cell parse_ratio <$> cells]> df
  | None => df
  end.

(** The body of the [try]. *)
Definition load_data_try (file : string) : result DataFrame :=
  do df <- read_csv file;
  do dates <- getitem df "Today's Date";
  do parsed <- to_datetime dates;
  let df := <["Today's Date" := Time <$> parsed]> df in
  do chng <- getitem df "%chng";
  let df := <["%chng" := numeric_cell parse_percent <$> chng]> df in
  let df := foldl clean_ratio_column df numeric_columns in
  do cap <- getitem df "Market Cap";
  let df := <["Market Cap" := numeric_cell parse_market_cap <$> cap]> df in
  do sym <- getitem df "Symbol";
  let df := <["Symbol" := clean_symbol <$> sym]> df in
  ret df.

(** [load_data]: the calls of [st.error] it makes and the frame it
    returns.  The [except Exception] clause catches whatever the body
    raises. *)
Definition load_data (file : string) : list st_call * DataFrame :=
  match load_data_try file with
  | inr df => ([], df)
  | inl e => ([st_error e], ∅)
  end.

End Loader.

(** ** The sector chart (lines 162-190) *)

(** The values of a column in the order of their first appearance:
    [Series.unique()], and the order in which [value_counts] meets its
    keys. *)
Fixpoint unique {A} `{EqDecision A} (col : list A) : list A :=
  match col with
  | [] => []
  | v :: col' => v :: filter (fun w => w <> v) (unique col')
  end.

(** [Series.value_counts()] on a column of strings: the values that occur,
    the missing one dropped, each with the number of its occurrences, put
    in the order of [sort_values(ascending=False)] on the counts. *)
Definition series_value_counts (S : Argsort) (col : list (option string))
    : list (string * nat) :=
  let present := omap id col in
  let counts := (fun k => (k, length (filter (fun v => v = k) present))) <$> unique present in
  sort_values S (fun kc => Some (Z.of_nat kc.2)) false counts.

(** What the code hands to plotly: the arguments of [go.Bar] and of
    [update_layout]. *)
Module Plotly.

Record Bar : Type := {
  x : list string;
  y : list nat;
  marker_color : string;
  text : list nat;
  textposition : string
}.

Record Layout : Type := {
  title_text : string;
  title_x : F64.float;
  title_font_size : Z;
  xaxis_tickangle : Z;
  template : string;
  showlegend : bool;
  xaxis_title : string;
  yaxis_title : string;
  height : Z;
  margin_t : Z;
  margin_b : Z
}.

Record Figure : Type := {
  data : list Bar;
  layout : Layout
}.

End Plotly.

(** [create_sector_chart]: one trace, a bar per sector, and the layout. *)
Definition create_sector_chart (S : Argsort) (filtered_data : list row) : Plotly.Figure :=
  let sector_counts := series_value_counts S (Sector <$> filtered_data) in
  {| Plotly.data :=
       [ {| Plotly.x := sector_counts.*1;
            Plotly.y := sector_counts.*2;
            Plotly.marker_color := "rgba(0, 255, 255, 0.6)";
            Plotly.text := sector_counts.*2;
            Plotly.textposition := "auto" |} ];
     Plotly.layout :=
       {| Plotly.title_text := "Sector Distribution";
          Plotly.title_x := F64.of_dyadic 1 (-1);
          Plotly.title_font_size := 20;
          Plotly.xaxis_tickangle := -45;
          Plotly.template := "plotly_dark";
          Plotly.showlegend := false;
          Plotly.xaxis_title := "Sector";
          Plotly.yaxis_title := "Number of Companies";
          Plotly.height := 400;
          Plotly.margin_t := 50;
          Plotly.margin_b := 100 |} |}.

(** The metrics of lines 480 and 482: [len(column.unique())]; [unique]
    keeps the missing value as one of the values. *)
Definition total_stocks (filtered_data : list frame_row) : nat :=
  length (unique (symbol_column filtered_data)).
Definition total_sectors (filtered_data : list row) : nat :=
  length (unique (Sector <$> filtered_data)).

(** ** The stock card (lines 192-251) *)

(** The row handed to the card, a pandas [Series]: its cells by label. *)
Abbreviation Series := (gmap string pyval).

(** [row[key]] *)
Definition series_getitem (row : Series) (key : string) : result pyval :=
  match row !! key with
  | Some v => ret v
  | None => raise (KeyError key)
  end.

(** [row.get(key, default)] *)
Definition series_get (row : Series) (key : string) (d : pyval) : pyval :=
  default d (row !! key).

(** A byte that continues the UTF-8 sequence of a code point. *)
Definition is_continuation (c : ascii) : bool :=
  let n := nat_of_ascii c in ((128 <=? n) && (n <? 192))%nat.

(** [len(s)]: the code points of [s]. *)
Fixpoint py_len (s : string) : nat :=
  match s with
  | EmptyString => 0
  | String c s' => if is_continuation c then py_len s' else S (py_len s')
  end.

(** [s[:n]]: the first [n] code points of [s]. *)
Fixpoint py_prefix (n : nat) (s : string) : string :=
  match s with
  | EmptyString => EmptyString
  | String c s' =>
      if is_continuation c then String c (py_prefix n s')
      else match n with
           | O => EmptyString
           | S k => String c (py_prefix k s')
           end
  end.

(** [format(x, '+.2f')] *)
Definition format_plus_2f (x : F64.float) : string :=
  match x with
  | S754_zero true | S754_infinity true | S754_finite true _ _ => F64.format_2f false x
  | _ => "+" +:+ F64.format_2f false x
  end.

(** [format(v, '.2f')], and [format(v, '+.2f')] when [plus] is set: an
    [int] is converted to a float first, a [str] does not know the format
    code, [None] knows no format specification at all. *)
Definition py_format_2f (plus : bool) (v : pyval) : result string :=
  let render x := if plus then format_plus_2f x else F64.format_2f false x in
  match v with
  | PyFloat x => ret (render x)
  | PyInt z => do x <- float_of_int z; ret (render x)
  | PyStr _ => raise ValueError
  | PyNone => raise TypeError
  end.

(** [f"{x:+.2f}%" if not pd.isna(x) else "N/A"] (line 196; line 349 has the
    same expression with [pd.notnull]). *)
Definition percent_display (x : pyval) : result string :=
  if negb (pd_isna x) then do s <- py_format_2f true x; ret (s +:+ "%")
  else ret "N/A".

(** Lines 200-201. *)
Definition shorten (about_text : pyval) : pyval :=
  match about_text with
  | PyStr s =>
      if (300 <? py_len s)%nat then PyStr (py_prefix 297 s +:+ "...") else about_text
  | _ => about_text
  end.

(** The double quote, and a literal of the card written with a backquote
    wherever the source has a double quote. *)
Definition dq : string := String (ascii_of_nat 34) EmptyString.
Definition html (s : string) : string := Str.replace "`" dq s.

Section Card.

(** Python's [float] on a [str], as for [format_number]. *)
Variable float_of_str : string -> option F64.float.
(** Python's [str] of a float. *)
Variable float_repr : F64.float -> string.

(** [format(v, '')], which is [str(v)]. *)
Definition py_str (v : pyval) : string :=
  match v with
  | PyStr s => s
  | PyInt z => pretty z
  | PyFloat x => float_repr x
  | PyNone => "None"
  end.

(** [f"{row.get(key, 'N/A'):.2f}" + suffix if pd.notnull(row.get(key)) else "N/A"]
    (lines 232, 236, 240 and 244). *)
Definition ratio_display (row : Series) (key suffix : string) : result string :=
  if negb (pd_isna (series_get row key PyNone))
  then do s <- py_format_2f false (series_get row key (PyStr "N/A")); ret (s +:+ suffix)
  else ret "N/A".

(** [create_stock_card]: lines 194-201, then the replacement fields of the
    template in the order Python evaluates them, from left to right.  The
    comparison of line 195 is with the integer 0, which [py_ge] compares
    by value as it does a float literal. *)
Definition create_stock_card (row : Series) : result string :=
  do price_change <- series_getitem row "%chng";
  do up <- py_ge price_change 0;
  let price_color := if up then "#00FF00" else "#FF0000" in
  do price_change_display <- percent_display price_change;
  do symbol <- series_getitem row "Symbol";
  let screener_url := "https://www.screener.in/company/" +:+ py_str symbol +:+ "/" in
  let about_text := shorten (series_get row "About" (PyStr "N/A")) in
  do symbol <- series_getitem row "Symbol";
  let sector := series_get row "Sector" (PyStr "N/A") in
  let industry := series_get row "Industry" (PyStr "N/A") in
  do count <- series_getitem row "count";
  do days <- series_getitem row "Days Since High";
  do ltp <- series_getitem row "LTP";
  do price <- format_number float_of_str ltp;
  do market_cap <- format_number float_of_str (series_get row "Market Cap" (PyStr "N/A"));
  do roe <- ratio_display row "ROE" "%";
  do roce <- ratio_display row "ROCE" "%";
  do pe_ratio <- ratio_display row "P/E Ratio" "";
  do dividend_yield <- ratio_display row "Dividend Yield" "%";
  ret (html "
    <div class=`stock-card`>
        <div class=`stock-header`>
            <div>
                <a href=`" +:+ screener_url +:+ html "` target=`_blank`><h3 style=`margin: 0;`>" +:+ (py_str symbol) +:+ html "</h3></a>
                <div style=`color: #888; margin-top: 5px;`>
                    <div>Sector: " +:+ (py_str sector) +:+ html "</div>
                    <div>Industry: " +:+ (py_str industry) +:+ html "</div>
                        <div style=`display: flex; justify-content: space-between; width: 100%; margin-top: 10px;`>
        <div style=`color: #888;`>
            Appearances: <strong style=`color: #00FFFF`>" +:+ (py_str count) +:+ html "</strong>
        </div>
        <div style=`color: #888; text-align: right;`>
            Last high (Days): <strong style=`color: #00FFFF`>" +:+ (py_str days) +:+ html "</strong>
        </div>
                </div>
            </div>
            <div style=`text-align: right;`>
                <div style=`font-size: 1.2em; font-weight: 500;`>" +:+ price +:+ html "</div>
                <div style=`color: " +:+ price_color +:+ html ";`>" +:+ price_change_display +:+ html "</div>
            </div>
        </div>
        <div class=`stock-metrics`>
            <div class=`metric-row`>
                <span class=`metric-label`>Market Cap</span>
                <span class=`metric-value`>" +:+ market_cap +:+ html "</span>
            </div>
            <div class=`metric-row`>
                <span class=`metric-label`>ROE</span>
                <span class=`metric-value`>" +:+ roe +:+ html "</span>
            </div>
            <div class=`metric-row`>
                <span class=`metric-label`>ROCE</span>
                <span class=`metric-value`>" +:+ roce +:+ html "</span>
            </div>
            <div class=`metric-row`>
                <span class=`metric-label`>P/E Ratio</span>
                <span class=`metric-value`>" +:+ pe_ratio +:+ html "</span>
            </div>
            <div class=`metric-row` style=`border-bottom: none;`>
                <span class=`metric-label`>Dividend Yield</span>
                <span class=`metric-value`>" +:+ dividend_yield +:+ html "</span>
            </div>
        </div>
        <div class=`about-section`>
            <strong>About:</strong> " +:+ (py_str about_text) +:+ html "
        </div>
    </div>
    ").

End Card.

(** ** The search view (lines 329-400 of [main]) *)

(** The calls that write to the page. *)
Inductive st_event : Type :=
  | st_markdown (body : string)
  | st_columns (spec : nat)
  | st_metric (label : string) (value : pyval)
  | st_dataframe (data : DataFrame)
  | st_warning (body : string)
  | st_info (body : string).

(** A computation that writes to the page and returns or raises. *)
Definition ui (A : Type) : Type := list st_event * result A.

Definition emit (e : st_event) : ui unit := ([e], ret tt).
Definition lift {A} (m : result A) : ui A := ([], m).
Definition ui_bind {A B} (m : ui A) (k : A -> ui B) : ui B :=
  match m with
  | (trace, inl e) => (trace, inl e)
  | (trace, inr x) => let '(trace', r) := k x in (trace ++ trace', r)
  end.

Notation "'run' x <- m ; k" := (ui_bind m (fun x => k))
  (at level 10, x name, m at level 100, k at level 200).
Notation "'show' e ; k" := (ui_bind (emit e) (fun _ => k))
  (at level 10, e at level 100, k at level 200).

(** [Series.apply(f)], cell by cell. *)
Fixpoint mapM {A B} (f : A -> result B) (l : list A) : result (list B) :=
  match l with
  | [] => ret []
  | x :: l' => do y <- f x; do ys <- mapM f l'; ret (y :: ys)
  end.

(** [Series.max()] on a float column: missing cells are skipped, and a
    column without a number has a missing maximum. *)
Definition float_max (col : list F64.float) : F64.float :=
  foldl (fun acc x =>
           if F64.is_nan x then acc
           else if F64.is_nan acc then x
           else if F64.leb acc x then x else acc) F64.nan col.

(** [Series.max()] on a datetime column, [NaT] when no cell has a date. *)
Definition date_max (col : list (option Z)) : option Z :=
  foldl (fun acc d =>
           match acc, d with
           | Some x, Some y => Some (Z.max x y)
           | None, _ => d
           | _, None => acc
           end) None col.

Section SearchView.

Variable S : Argsort.
Variable float_of_str : string -> option F64.float.
(** [Timestamp.strftime('%d %B %Y')] *)
Variable strftime : Z -> string.
(** The rows of a frame put in the order of one of its columns. *)
Variable sort_frame : DataFrame -> string -> bool -> DataFrame.

(** [df.sort_values(by, ascending=...)]: [KeyError] when [by] is not a
    column of [df]. *)
Definition frame_sort_values (df : DataFrame) (by_ : string) (ascending : bool)
    : result DataFrame :=
  match df !! by_ with
  | Some _ => ret (sort_frame df by_ ascending)
  | None => raise (KeyError by_)
  end.

(** [t.strftime('%d %B %Y')] on a scalar: [NaT] raises [ValueError]. *)
Definition timestamp_strftime (t : option Z) : result string :=
  match t with
  | Some ns => ret (strftime ns)
  | None => raise ValueError
  end.

(** One cell under [.dt.strftime('%d %B %Y')]: [NaT] becomes missing. *)
Definition dt_strftime (t : option Z) : cell :=
  match t with
  | Some ns => Text (strftime ns)
  | None => Num F64.nan
  end.

(** The statement at lines 329-399.  Line 362 reads the name [fig], which
    is bound neither in [main] nor in the module; what follows it in the
    branch (lines 362-395) is never reached. *)
Definition search_view (data : list row) (search_symbol : string) : ui unit :=
  if bool_decide (search_symbol <> "") then
    let high_dates := get_stock_highs S data search_symbol in
    if negb (empty high_dates) then
      show st_markdown ("### Historical Highs for " +:+ search_symbol);
      show st_columns 3;
      let max_price := float_max ((fun rh => LTP rh.1) <$> high_dates) in
      run price <- lift (format_number float_of_str (PyFloat max_price));
      show st_metric "All-Time High" (PyStr price);
      let total_highs := length high_dates in
      show st_metric "Number of High Points" (PyInt (Z.of_nat total_highs));
      let latest_high := date_max ((fun rh => Date rh.1) <$> high_dates) in
      run day <- lift (timestamp_strftime latest_high);
      show st_metric "Latest High Date" (PyStr day);
      show st_markdown "### High Points Timeline";
      let Date_column := (fun rh => dt_strftime (Date rh.1)) <$> high_dates in
      run LTP_column <-
        lift (mapM (fun rh => format_number float_of_str (PyFloat (LTP rh.1))) high_dates);
      run Change_column <-
        lift (mapM (fun rh => percent_display (PyFloat (pct_chng rh.1))) high_dates);
      (* display_df[['Date', 'LTP', 'Change']] *)
      let shown : DataFrame :=
        <["Date" := Date_column]>
          (<["LTP" := Text <$> LTP_column]> (<["Change" := Text <$> Change_column]> ∅)) in
      run sorted <- lift (frame_sort_values shown "Today's Date" false);
      show st_dataframe sorted;
      (* line 362 *)
      lift (raise (OtherError "NameError"))
    else emit (st_warning ("No data found for symbol " +:+ search_symbol))
  else emit (st_info "Please enter a stock symbol to view its analysis").

End SearchView.

(** * Properties

    From here on nothing is added to the model.  The definitions that
    appear among the lemmas are vocabulary for the statements, and
    stand-ins for the library functions (two sorts, a decimal parser, a
    reader) at which statements are instantiated. *)

(** ** The order of floats *)

Section FloatOrder.
Import F64.

Local Ltac cmp_cases :=
  repeat match goal with
  | |- context [Z.compare ?a ?b] => destruct (Z.compare_spec a b)
  | |- context [Pos.compare_cont Eq ?a ?b] =>
      change (Pos.compare_cont Eq a b) with (Pos.compare a b);
      destruct (Pos.compare_spec a b)
  | H : context [Z.compare ?a ?b] |- _ => destruct (Z.compare_spec a b)
  | H : context [Pos.compare_cont Eq ?a ?b] |- _ =>
      change (Pos.compare_cont Eq a b) with (Pos.compare a b) in H;
      destruct (Pos.compare_spec a b)
  end.

Local Ltac float_cases x := destruct x as [[]|[]| |[] ? ?].

Lemma leb_not_nan x y : leb x y = true -> is_nan x = false /\ is_nan y = false.
Proof. float_cases x; float_cases y; simpl; done. Qed.

Lemma leb_refl x : is_nan x = false -> leb x x = true.
Proof.
  float_cases x; simpl; try done; intros _; unfold leb, SFleb; simpl;
    rewrite Z.compare_refl; change (Pos.compare_cont Eq m m) with (Pos.compare m m);
    by rewrite Pos.compare_refl.
Qed.

Lemma leb_total x y :
  is_nan x = false -> is_nan y = false -> leb x y = true \/ leb y x = true.
Proof.
  float_cases x; float_cases y; simpl; try done; intros _ _;
    unfold leb, SFleb; simpl; auto;
    cmp_cases; simpl; auto; lia.
Qed.

Lemma leb_trans x y z : leb x y = true -> leb y z = true -> leb x z = true.
Proof.
  float_cases x; float_cases y; simpl; try done;
    float_cases z; simpl; try done;
    unfold leb, SFleb; simpl; try done;
    intros H1 H2; cmp_cases; simpl in *; try done; lia.
Qed.

Lemma eqb_leb x y : eqb x y = leb x y && leb y x.
Proof.
  float_cases x; float_cases y; simpl; try done;
    unfold eqb, leb, SFeqb, SFleb; simpl;
    cmp_cases; simpl; try done; lia.
Qed.

End FloatOrder.

(** ** Two sorts that keep numpy's promise

    Insertion of the indices from the last to the first.  With
    [strict = false] an index goes before the indices of equal keys (a
    stable sort); with [strict = true] it goes after them, which reverses
    every run of equal keys. *)
Fixpoint insert_idx (ks : list Z) (strict : bool) (i : nat) (idx : list nat) : list nat :=
  match idx with
  | [] => [i]
  | j :: idx' =>
      if (if strict then key_at ks i <? key_at ks j else key_at ks i <=? key_at ks j)
      then i :: idx
      else j :: insert_idx ks strict i idx'
  end.

Definition insertion_argsort (strict : bool) (ks : list Z) : list nat :=
  foldr (insert_idx ks strict) [] (seq 0 (length ks)).

Section SortingFacts.

Lemma insert_idx_perm ks strict i idx : insert_idx ks strict i idx ≡ₚ i :: idx.
Proof.
  induction idx as [|j idx IH]; simpl; [done|].
  case_match; [done|]. by rewrite IH, Permutation_swap.
Qed.

Lemma insert_idx_hd ks strict i j idx :
  key_at ks j <= key_at ks i ->
  HdRel Z.le (key_at ks j) (key_at ks <$> idx) ->
  HdRel Z.le (key_at ks j) (key_at ks <$> insert_idx ks strict i idx).
Proof.
  intros Hji Hhd. destruct idx as [|j' idx]; simpl; [by constructor|].
  destruct (if strict then _ else _); simpl; constructor; [done|].
  by inv Hhd.
Qed.

Lemma insert_idx_sorted ks strict i idx :
  Sorted Z.le (key_at ks <$> idx) ->
  Sorted Z.le (key_at ks <$> insert_idx ks strict i idx).
Proof.
  induction idx as [|j idx IH]; simpl; intros Hs.
  { repeat constructor. }
  destruct (if strict then _ else _) eqn:Hc; simpl.
  - constructor; [done|]. constructor. destruct strict; lia.
  - inv Hs. constructor; [by apply IH|].
    apply insert_idx_hd; [destruct strict; lia|done].
Qed.

Lemma insertion_argsort_perm strict ks :
  insertion_argsort strict ks ≡ₚ seq 0 (length ks).
Proof.
  unfold insertion_argsort. induction (seq 0 (length ks)) as [|i l IH]; simpl; [done|].
  by rewrite insert_idx_perm, IH.
Qed.

Lemma insertion_argsort_sorted strict ks :
  Sorted Z.le (key_at ks <$> insertion_argsort strict ks).
Proof.
  unfold insertion_argsort. induction (seq 0 (length ks)) as [|i l IH]; simpl.
  - constructor.
  - by apply insert_idx_sorted.
Qed.

End SortingFacts.

(** A stable sort, and one that is not. *)
Definition stable_argsort : Argsort :=
  {| argsort := insertion_argsort false;
     argsort_perm := insertion_argsort_perm false;
     argsort_sorted := insertion_argsort_sorted false |}.

Definition reversing_argsort : Argsort :=
  {| argsort := insertion_argsort true;
     argsort_perm := insertion_argsort_perm true;
     argsort_sorted := insertion_argsort_sorted true |}.

Section SortValuesFacts.
Context {A : Type}.
Implicit Types (S : Argsort) (l df : list A).

Lemma omap_fmap {B C} (g : B -> C) (f : C -> option A) (l : list B) :
  omap f (g <$> l) = omap (fun x => f (g x)) l.
Proof. induction l as [|x l IH]; csimpl; [done|]. by rewrite IH. Qed.

Lemma iloc_seq l : iloc l (seq 0 (length l)) = l.
Proof.
  unfold iloc. induction l as [|x l IH]; simpl; [done|].
  f_equal. rewrite <- fmap_S_seq, omap_fmap. exact IH.
Qed.

Lemma Sorted_ext_in (R1 R2 : relation A) l :
  (forall x y, x ∈ l -> y ∈ l -> R1 x y -> R2 x y) ->
  Sorted R1 l -> Sorted R2 l.
Proof.
  intros HR Hs. induction Hs as [|x l Hs IH Hhd]; constructor.
  - apply IH. intros ????. apply HR; by constructor.
  - destruct Hhd; constructor. apply HR; [left|right; left|done].
Qed.

Lemma iloc_perm l idx : idx ≡ₚ seq 0 (length l) -> iloc l idx ≡ₚ l.
Proof.
  intros Hp. rewrite <- (iloc_seq l) at 2. unfold iloc. by apply omap_Permutation.
Qed.

Lemma fmap_iloc {B} (f : A -> B) (d : B) l idx :
  Forall (fun i => (i < length l)%nat) idx ->
  f <$> iloc l idx = (fun i => default d ((f <$> l) !! i)) <$> idx.
Proof.
  unfold iloc. induction 1 as [|i idx Hi _ IH]; [done|].
  destruct (lookup_lt_is_Some_2 l i Hi) as [x Hx].
  csimpl. rewrite list_lookup_fmap, Hx. csimpl. by rewrite IH.
Qed.

Lemma Sorted_fmap_inv {B} (f : A -> B) (R : relation B) l :
  Sorted R (f <$> l) -> Sorted (fun x y => R (f x) (f y)) l.
Proof.
  induction l as [|x l IH]; simpl; intros Hs; [constructor|].
  inv Hs. constructor; [by apply IH|].
  destruct l; simpl in *; constructor.
  by match goal with H : HdRel _ _ _ |- _ => inv H end.
Qed.

Lemma sort_by_perm S (key : A -> Z) l : sort_by S key l ≡ₚ l.
Proof.
  unfold sort_by. apply iloc_perm.
  by rewrite argsort_perm, length_fmap.
Qed.

Lemma sort_by_sorted S (key : A -> Z) l :
  Sorted (fun x y => key x <= key y) (sort_by S key l).
Proof.
  apply (Sorted_fmap_inv key Z.le). unfold sort_by.
  rewrite (fmap_iloc key 0).
  - apply (argsort_sorted S).
  - apply Forall_forall. intros i Hi.
    rewrite (argsort_perm S), elem_of_seq, length_fmap in Hi. lia.
Qed.

Lemma sort_values_perm S (key : A -> option Z) asc df :
  sort_values S key asc df ≡ₚ df.
Proof.
  unfold sort_values.
  etrans; [|apply (filter_app_complement (fun x => is_Some (key x)) df)].
  apply Permutation_app.
  - destruct asc; [by rewrite sort_by_perm|].
    by rewrite reverse_Permutation, sort_by_perm, reverse_Permutation.
  - erewrite list_filter_iff; [done|].
    intros x. by rewrite eq_None_not_Some.
Qed.

Global Instance key_le_trans asc : Transitive (key_le asc).
Proof. intros [x|] [y|] [z|]; simpl; try done; destruct asc; lia. Qed.

Lemma sort_values_sorted S (key : A -> option Z) asc df :
  StronglySorted (fun x y => key_le asc (key x) (key y)) (sort_values S key asc df).
Proof.
  unfold sort_values. set (k x := default 0 (key x)).
  set (non_nans := filter (fun x => is_Some (key x)) df).
  assert (Hkey : forall l' x, l' ≡ₚ non_nans -> x ∈ l' -> key x = Some (k x)).
  { intros l' x Hp. rewrite Hp. unfold non_nans.
    rewrite list_elem_of_filter. intros [[z Hz] _]. unfold k. by rewrite Hz. }
  apply StronglySorted_app_2.
  - intros x y Hx Hy. apply list_elem_of_filter in Hy as [-> _].
    by destruct (key x).
  - assert (Ht : Transitive (fun x y : A => key_le asc (key x) (key y))).
    { intros x y z. apply (key_le_trans asc). }
    apply Sorted_StronglySorted; [done|].
    destruct asc.
    + eapply Sorted_ext_in; [|apply (sort_by_sorted S k)].
      intros x y Hx Hy. cbn beta.
      rewrite (Hkey _ x (sort_by_perm S k _) Hx), (Hkey _ y (sort_by_perm S k _) Hy).
      done.
    + eapply Sorted_ext_in; [|apply Sorted_reverse, (sort_by_sorted S k)].
      intros x y Hx Hy. unfold flip. cbn beta.
      assert (Hp : reverse (sort_by S k (reverse non_nans)) ≡ₚ non_nans).
      { by rewrite reverse_Permutation, sort_by_perm, reverse_Permutation. }
      rewrite (Hkey _ x Hp Hx), (Hkey _ y Hp Hy). done.
  - assert (Hall : Forall (fun x => key x = None) (filter (fun x => key x = None) df)).
    { apply Forall_forall. intros y. rewrite list_elem_of_filter. tauto. }
    induction Hall as [|y l' Hy Hall IH]; constructor; [done|].
    eapply Forall_impl; [exact Hall|]. intros z Hz. rewrite Hz. by destruct (key y).
Qed.

End SortValuesFacts.

(** ** Stability *)

(** Whether a sort left the rows of equal key in the order they had. *)
Definition keeps_tie_order {A} (key : A -> option Z) (before after : list A) : Prop :=
  forall k, filter (fun x => key x = k) after = filter (fun x => key x = k) before.


Section Stability.








End Stability.

(** ** What the running-high filter keeps

    [is_peak seen p]: the price [p] is a number and no earlier price is
    above it, that is, [p] is the maximum of the prices up to and including
    its own. *)
Definition is_peak (seen : list F64.float) (p : F64.float) : Prop :=
  F64.is_nan p = false /\
  Forall (fun q => F64.is_nan q = false -> F64.leb q p = true) seen.

Global Instance is_peak_dec seen p : Decision (is_peak seen p).
Proof. unfold is_peak. apply _. Defined.

(** The rows of a date-ordered list whose price is a peak, [seen] being the
    prices before the list. *)
Fixpoint running_highs (seen : list F64.float) (rows : list row) : list row :=
  match rows with
  | [] => []
  | r :: rs =>
      (if decide (is_peak seen (LTP r)) then [r] else [])
        ++ running_highs (seen ++ [LTP r]) rs
  end.

Section RunningHighs.
Import F64.

Definition unmask (v : float) : float := if is_nan v then neg_inf else v.

(** [acc] is the least upper bound of the numbers in [seen]. *)
Definition is_lub (acc : float) (seen : list float) : Prop :=
  is_nan acc = false /\
  Forall (fun q => is_nan q = false -> leb q acc = true) seen /\
  (forall p, is_peak seen p -> leb acc p = true).

Lemma neg_inf_least p : is_nan p = false -> leb neg_inf p = true.
Proof. by destruct p as [[]|[]| |[] ? ?]. Qed.

Lemma is_lub_nil : is_lub neg_inf [].
Proof.
  split; [done|]. split; [constructor|].
  intros p [Hp _]. by apply neg_inf_least.
Qed.

Lemma np_maximum_neg_inf x : is_nan x = false -> np_maximum neg_inf x = x.
Proof. by destruct x as [[]|[]| |[] ? ?]. Qed.

Lemma unmask_not_nan v : is_nan (unmask v) = false.
Proof. by destruct v. Qed.

Lemma accumulate_neg_inf l :
  accumulate np_maximum (unmask <$> l)
  = accumulate_from np_maximum neg_inf (unmask <$> l).
Proof.
  destruct l as [|v l]; [done|]. csimpl.
  by rewrite np_maximum_neg_inf by apply unmask_not_nan.
Qed.

Lemma is_peak_snoc seen q p :
  is_peak (seen ++ [q]) p <->
  is_peak seen p /\ (is_nan q = false -> leb q p = true).
Proof.
  unfold is_peak. rewrite Forall_app, Forall_singleton. tauto.
Qed.

Lemma is_lub_skip acc seen v :
  is_nan v = true -> is_lub acc seen -> is_lub acc (seen ++ [v]).
Proof.
  intros Hv (Hacc & Hub & Hleast). split; [done|]. split.
  - apply Forall_app. split; [done|]. apply Forall_singleton. congruence.
  - intros p [Hp _]%is_peak_snoc. by apply Hleast.
Qed.

Lemma is_lub_step acc seen v :
  is_nan v = false -> is_lub acc seen ->
  is_lub (np_maximum acc v) (seen ++ [v]) /\
  (eqb v (np_maximum acc v) = true <-> is_peak seen v).
Proof.
  intros Hv (Hacc & Hub & Hleast). unfold np_maximum, geb.
  rewrite Hv, orb_false_r. destruct (leb acc v) eqn:Hge.
  - assert (Hpeak : is_peak seen v).
    { split; [done|]. eapply Forall_impl; [exact Hub|].
      intros q Hq Hnan. eapply leb_trans; [by apply Hq|done]. }
    split.
    + split; [done|]. split.
      * apply Forall_app. split; [apply Hpeak|].
        apply Forall_singleton. intros _. by apply leb_refl.
      * intros p [_ Hp]%is_peak_snoc. by apply Hp.
    + rewrite eqb_leb, leb_refl by done. done.
  - destruct (leb_total v acc Hv Hacc) as [Hle|?]; [|congruence].
    split.
    + split; [done|]. split.
      * apply Forall_app. split; [done|]. by apply Forall_singleton.
      * intros p [Hp _]%is_peak_snoc. by apply Hleast.
    + rewrite eqb_leb, Hle, Hge. simpl. split; [done|].
      intros Hpeak%Hleast. congruence.
Qed.

(** The filter of line 158 over rows that follow prices [seen]. *)
Lemma highs_from acc seen rows :
  is_lub acc seen ->
  (filter (fun rh : row * float => eqb (LTP rh.1) rh.2 = true)
     (zip rows
        (zip_with (fun v r => if is_nan v then nan else r) (LTP <$> rows)
           (accumulate_from np_maximum acc (unmask <$> (LTP <$> rows)))))).*1
  = running_highs seen rows.
Proof.
  revert acc seen. induction rows as [|r rows IH]; intros acc seen Hlub; [done|].
  csimpl. destruct (is_nan (LTP r)) eqn:Hnan.
  - assert (Hacc : np_maximum acc (unmask (LTP r)) = acc).
    { unfold unmask. rewrite Hnan. destruct Hlub as [Hacc _].
      by destruct acc as [[]|[]| |[] ? ?]. }
    rewrite Hacc, filter_cons_False.
    2:{ simpl. destruct (LTP r); done. }
    rewrite decide_False by (intros [? _]; congruence).
    simpl. apply IH. by apply is_lub_skip.
  - assert (Hun : unmask (LTP r) = LTP r) by (unfold unmask; by rewrite Hnan).
    rewrite Hun. destruct (is_lub_step acc seen (LTP r) Hnan Hlub) as [Hlub' Hiff].
    destruct (decide (is_peak seen (LTP r))) as [Hpk|Hpk].
    + rewrite filter_cons_True by (simpl; by apply Hiff).
      csimpl. f_equal. by apply IH.
    + rewrite filter_cons_False by (simpl; by rewrite Hiff).
      simpl. by apply IH.
Qed.

Lemma highs_of_sorted rows :
  (filter (fun rh : row * float => eqb (LTP rh.1) rh.2 = true)
     (zip rows (cummax (LTP <$> rows)))).*1
  = running_highs [] rows.
Proof.
  unfold cummax. fold unmask. rewrite accumulate_neg_inf.
  apply highs_from, is_lub_nil.
Qed.

(** Every kept row has a price that is a number and is not below any
    earlier number; the kept prices never decrease. *)
Lemma running_highs_peaks seen rows r :
  r ∈ running_highs seen rows -> is_peak seen (LTP r).
Proof.
  revert seen. induction rows as [|r' rows IH]; intros seen; simpl.
  { by intros ?%elem_of_nil. }
  rewrite elem_of_app. intros [Hin|Hin].
  - destruct (decide _) as [Hpk|]; [|by apply elem_of_nil in Hin].
    apply list_elem_of_singleton in Hin. by subst.
  - apply IH in Hin. by apply is_peak_snoc in Hin as [? _].
Qed.

Lemma running_highs_sorted seen rows :
  StronglySorted (fun a b => leb a b = true) (LTP <$> running_highs seen rows).
Proof.
  revert seen. induction rows as [|r rows IH]; intros seen; simpl; [constructor|].
  rewrite fmap_app. apply StronglySorted_app_2; [| |apply IH].
  - intros p q Hp Hq. destruct (decide _) as [Hpk|]; [|by apply elem_of_nil in Hp].
    apply list_elem_of_singleton in Hp. subst p.
    apply list_elem_of_fmap in Hq as (r' & -> & Hr').
    apply running_highs_peaks, is_peak_snoc in Hr' as [_ Hle].
    apply Hle, Hpk.
  - destruct (decide _); repeat constructor.
Qed.

End RunningHighs.

(** ** The claims about [get_stock_highs] *)

Definition date_order (r1 r2 : row) : Prop := key_le true (Date r1) (Date r2).

Lemma sort_values_nil {A} S (key : A -> option Z) asc : sort_values S key asc [] = [].
Proof. apply Permutation_nil_r. apply sort_values_perm. Qed.

Lemma get_stock_highs_rows S data symbol :
  symbol <> "" ->
  (get_stock_highs S data symbol).*1
  = running_highs [] (sort_values S Date true (filter (fun r => Symbol r = symbol) data)).
Proof.
  intros Hs. unfold get_stock_highs. rewrite bool_decide_true by done.
  destruct (filter _ data) as [|r rows] eqn:Hf; simpl.
  - by rewrite sort_values_nil.
  - apply highs_of_sorted.
Qed.

Lemma running_highs_sublist seen rows : running_highs seen rows `sublist_of` rows.
Proof.
  revert seen. induction rows as [|r rows IH]; intros seen; simpl; [done|].
  destruct (decide _); simpl; [by apply sublist_skip|by apply sublist_cons].
Qed.

Lemma StronglySorted_sublist {A} (R : relation A) l1 l2 :
  l1 `sublist_of` l2 -> StronglySorted R l2 -> StronglySorted R l1.
Proof.
  induction 1 as [|x l1 l2 Hsub IH|x l1 l2 Hsub IH]; intros Hs; [done|..].
  - apply StronglySorted_cons in Hs as [Hall Hs]. constructor; [by apply IH|].
    apply Forall_forall. intros y Hy. rewrite Forall_forall in Hall.
    apply Hall. by eapply elem_of_sublist.
  - apply StronglySorted_cons in Hs as [_ Hs]. by apply IH.
Qed.

(** Five rows on consecutive dates, in date order, are the only
    date-ordered arrangement of themselves. *)
Lemma consecutive_dates_unique (l : list row) r1 r2 r3 r4 r5 d :
  Date r1 = Some d -> Date r2 = Some (d + 1) -> Date r3 = Some (d + 2) ->
  Date r4 = Some (d + 3) -> Date r5 = Some (d + 4) ->
  l ≡ₚ [r1; r2; r3; r4; r5] -> StronglySorted date_order l ->
  l = [r1; r2; r3; r4; r5].
Proof.
  intros H1 H2 H3 H4 H5 Hp Hs.
  apply (StronglySorted_unique_strong date_order); [|done| |done].
  - intros x y Hx Hy. rewrite Hp in Hx. unfold date_order.
    rewrite !elem_of_cons, elem_of_nil in Hx, Hy.
    destruct Hx as [->|[->|[->|[->|[->|[]]]]]];
      destruct Hy as [->|[->|[->|[->|[->|[]]]]]];
      rewrite ?H1, ?H2, ?H3, ?H4, ?H5; simpl; intros; first [done|lia].
  - repeat constructor; unfold date_order;
      rewrite ?H1, ?H2, ?H3, ?H4, ?H5; simpl; lia.
Qed.

(** C1, amended: for a symbol that is not the empty string, the rows of the
    symbol are put in date order (missing dates last) and exactly those
    whose price is the running maximum up to and including themselves are
    returned, plateaus included; five rows priced 10, 12, 12, 9, 15 on
    consecutive dates give the four rows at positions 1, 2, 3 and 5. *)
Theorem historical_highs_running_max (S : Argsort) (data : list row) (symbol : string) :
  symbol <> "" ->
  let stock_data := filter (fun r => Symbol r = symbol) data in
  let sorted := sort_values S Date true stock_data in
  sorted ≡ₚ stock_data /\
  StronglySorted date_order sorted /\
  (get_stock_highs S data symbol).*1 = running_highs [] sorted /\
  (forall r1 r2 r3 r4 r5 d,
     stock_data ≡ₚ [r1; r2; r3; r4; r5] ->
     Date r1 = Some d -> Date r2 = Some (d + 1) -> Date r3 = Some (d + 2) ->
     Date r4 = Some (d + 3) -> Date r5 = Some (d + 4) ->
     LTP r1 = F64.of_Z 10 -> LTP r2 = F64.of_Z 12 -> LTP r3 = F64.of_Z 12 ->
     LTP r4 = F64.of_Z 9 -> LTP r5 = F64.of_Z 15 ->
     (get_stock_highs S data symbol).*1 = [r1; r2; r3; r5]).
Proof.
  intros Hs stock_data sorted.
  assert (Hperm : sorted ≡ₚ stock_data) by apply sort_values_perm.
  assert (Hsorted : StronglySorted date_order sorted) by apply sort_values_sorted.
  split; [done|]. split; [done|]. split; [by apply get_stock_highs_rows|].
  intros r1 r2 r3 r4 r5 d Hrows D1 D2 D3 D4 D5 P1 P2 P3 P4 P5.
  rewrite get_stock_highs_rows by done. fold stock_data. fold sorted.
  rewrite (consecutive_dates_unique sorted r1 r2 r3 r4 r5 d) by (done || by rewrite Hperm).
  simpl. rewrite P1, P2, P3, P4, P5. by vm_compute.
Qed.

(** A row with the given symbol, date, price and percent change, the
    other cells missing. *)
Definition mk_row (symbol : string) (date : option Z) (ltp chng : F64.float) : row :=
  {| Date := date; Symbol := symbol; LTP := ltp; pct_chng := chng;
     Sector := None; Industry := None; Market_Cap := F64.nan; ROE := F64.nan;
     ROCE := F64.nan; PE_Ratio := F64.nan; Book_Value := F64.nan;
     Dividend_Yield := F64.nan; About := None |}.

Definition priced (symbol : string) (date price : Z) : row :=
  mk_row symbol (Some date) (F64.of_Z price) F64.nan.

Definition highs_example : list row :=
  [ priced "INFY" 1 99; priced "TCS" 3 12; priced "TCS" 1 10; priced "TCS" 5 15;
    priced "TCS" 2 12; priced "INFY" 2 98; priced "TCS" 4 9 ].

Lemma historical_highs_running_max_witness :
  (get_stock_highs stable_argsort highs_example "TCS").*1
  = [ priced "TCS" 1 10; priced "TCS" 2 12; priced "TCS" 3 12; priced "TCS" 5 15 ].
Proof.
  refine (proj2 (proj2 (proj2
    (historical_highs_running_max stable_argsort highs_example "TCS" _)))
    (priced "TCS" 1 10) (priced "TCS" 2 12) (priced "TCS" 3 12)
    (priced "TCS" 4 9) (priced "TCS" 5 15) 1 _
    eq_refl eq_refl eq_refl eq_refl eq_refl eq_refl eq_refl eq_refl eq_refl eq_refl).
  - discriminate.
  - apply (bool_decide_unpack _). by vm_compute.
Defined.

(** C1 as stated fails for the empty symbol: a row whose symbol is the
    empty string is a running high of its symbol and is not returned. *)
Lemma historical_highs_empty_symbol_counterexample :
  get_stock_highs stable_argsort [priced "" 0 10] "" = [] /\
  running_highs []
    (sort_values stable_argsort Date true
       (filter (fun r => Symbol r = "") [priced "" 0 10]))
  = [priced "" 0 10].
Proof. split; by vm_compute. Qed.

(** C6: the prices of the returned rows, which stand in date order, never
    decrease from one returned row to the next. *)
Theorem historical_highs_non_decreasing (S : Argsort) (data : list row) (symbol : string) :
  Sorted (fun a b => F64.leb a b = true) (LTP <$> (get_stock_highs S data symbol).*1) /\
  StronglySorted date_order (get_stock_highs S data symbol).*1.
Proof.
  destruct (decide (symbol = "")) as [->|Hs].
  { unfold get_stock_highs. rewrite bool_decide_false by (intros H; by apply H).
    split; constructor. }
  rewrite get_stock_highs_rows by done. split.
  - apply StronglySorted_Sorted, running_highs_sorted.
  - eapply StronglySorted_sublist; [apply running_highs_sublist|].
    apply sort_values_sorted.
Qed.

(** C10: with the empty string as the symbol nothing is returned, whatever
    the table holds. *)
Theorem historical_highs_empty_symbol (S : Argsort) (data : list row) :
  get_stock_highs S data "" = [].
Proof.
  unfold get_stock_highs. by rewrite bool_decide_false by (intros H; by apply H).
Qed.

(** ** The claims about [get_latest_stock_data] *)

(** The number of rows of a table that carry a symbol. *)
Definition row_count (symbol : string) (table : list row) : nat :=
  length (filter (fun r => Symbol r = symbol) table).

Section LatestFacts.

Lemma value_counts_lookup (s : string) (symbols : list string) :
  value_counts symbols !! s
  = match length (filter (fun x => x = s) symbols) with
    | O => None
    | n => Some n
    end.
Proof.
  induction symbols as [|x l IH]; simpl; [by rewrite lookup_empty|].
  rewrite lookup_insert. destruct (decide (x = s)) as [->|Hne].
  - rewrite filter_cons_True by done. simpl. rewrite IH.
    by destruct (length _).
  - by rewrite filter_cons_False.
Qed.

Lemma length_filter_symbol (s : string) (table : list row) :
  length (filter (fun x => x = s) (Symbol <$> table)) = row_count s table.
Proof.
  unfold row_count. induction table as [|r t IH]; [done|]. csimpl.
  destruct (decide (Symbol r = s)) as [Heq|Hne].
  - rewrite !filter_cons_True by done. simpl. by rewrite IH.
  - by rewrite !filter_cons_False.
Qed.

Lemma row_count_pos (s : string) (table : list row) :
  s ∈ Symbol <$> table -> (0 < row_count s table)%nat.
Proof.
  intros (r & -> & Hr)%list_elem_of_fmap. unfold row_count.
  assert (Hin : r ∈ filter (fun x => Symbol x = Symbol r) table)
    by (by apply list_elem_of_filter).
  destruct (filter _ table); [by apply elem_of_nil in Hin|simpl; lia].
Qed.

Lemma stock_counts_lookup (s : string) (table : list row) :
  s ∈ Symbol <$> table ->
  value_counts (Symbol <$> table) !! s = Some (row_count s table).
Proof.
  intros Hs%row_count_pos. rewrite value_counts_lookup, length_filter_symbol.
  destruct (row_count s table); [lia|done].
Qed.

Lemma insert_row_perm {A} (le : A -> A -> bool) x l : insert_row le x l ≡ₚ x :: l.
Proof.
  induction l as [|y l IH]; simpl; [done|].
  destruct (le x y); [done|]. by rewrite IH, Permutation_swap.
Qed.

Lemma stable_sort_perm {A} (le : A -> A -> bool) l : stable_sort le l ≡ₚ l.
Proof.
  unfold stable_sort. induction l as [|x l IH]; simpl; [done|].
  by rewrite insert_row_perm, IH.
Qed.

Lemma elem_of_group_keys s df : s ∈ group_keys df <-> s ∈ Symbol <$> df.
Proof.
  unfold group_keys. by rewrite merge_sort_Permutation, elem_of_remove_dups.
Qed.

Lemma NoDup_group_keys df : NoDup (group_keys df).
Proof.
  unfold group_keys. rewrite merge_sort_Permutation. apply NoDup_remove_dups.
Qed.

Lemma groupby_first_symbols df : Symbol <$> groupby_first df = group_keys df.
Proof.
  unfold groupby_first. rewrite <- list_fmap_compose.
  by rewrite <- (list_fmap_id (group_keys df)) at 2.
Qed.

Lemma latest_data_symbols table :
  Symbol <$> (latest_data table).*1 = group_keys (stable_sort latest_first table).
Proof.
  unfold latest_data. rewrite <- !list_fmap_compose.
  exact (groupby_first_symbols _).
Qed.

(** What [latest_data] holds: one row per symbol of the table, with the
    number of rows of that symbol. *)
Lemma elem_of_latest_data table r c :
  (r, c) ∈ latest_data table ->
  Symbol r ∈ Symbol <$> table /\ c = Some (row_count (Symbol r) table).
Proof.
  unfold latest_data. intros (r0 & [= -> ->] & Hr0)%list_elem_of_fmap.
  assert (Hs : Symbol r0 ∈ Symbol <$> table).
  { apply (list_elem_of_fmap_2 Symbol) in Hr0.
    rewrite groupby_first_symbols, elem_of_group_keys, stable_sort_perm in Hr0.
    done. }
  split; [done|]. by apply stock_counts_lookup.
Qed.

Lemma latest_data_covers table s :
  s ∈ Symbol <$> table ->
  exists r, (r, Some (row_count s table)) ∈ latest_data table /\ Symbol r = s.
Proof.
  intros Hs. assert (Hk : s ∈ Symbol <$> groupby_first (stable_sort latest_first table)).
  { by rewrite groupby_first_symbols, elem_of_group_keys, stable_sort_perm. }
  apply list_elem_of_fmap in Hk as (r & -> & Hr). exists r. split; [|done].
  unfold latest_data. apply list_elem_of_fmap. exists r. split; [|done].
  by rewrite stock_counts_lookup.
Qed.

Lemma elem_of_get_latest S table rc :
  rc ∈ get_latest_stock_data S table <-> rc ∈ latest_data table.
Proof. unfold get_latest_stock_data. by rewrite sort_values_perm. Qed.

Lemma latest_pairs S table s c :
  (exists r, (r, c) ∈ get_latest_stock_data S table /\ Symbol r = s) <->
  s ∈ Symbol <$> table /\ c = Some (row_count s table).
Proof.
  split.
  - intros (r & Hr%elem_of_get_latest & <-). by apply elem_of_latest_data.
  - intros [Hs ->]. destruct (latest_data_covers table s Hs) as (r & Hr & <-).
    exists r. by rewrite elem_of_get_latest.
Qed.

Lemma sort_values_singleton {A} S (key : A -> option Z) asc x :
  sort_values S key asc [x] = [x].
Proof. apply Permutation_singleton_r, sort_values_perm. Qed.

End LatestFacts.

(** ** The order behind the latest snapshot *)

Section LatestOrder.
Import F64.

(** [a] may stand before [b] among percent changes sorted descending,
    missing ones last. *)
Definition chng_ge (a b : float) : bool := is_nan b || leb b a.

Lemma float_desc_not_Gt a b :
  match float_desc a b with Gt => false | _ => true end = chng_ge a b.
Proof.
  unfold float_desc, chng_ge, leb, SFleb.
  destruct a as [[]|[]| |[] ? ?], b as [[]|[]| |[] ? ?]; simpl; try done;
    repeat match goal with
    | |- context [Z.compare ?a ?b] => destruct (Z.compare a b)
    | |- context [Pos.compare_cont Eq ?a ?b] => destruct (Pos.compare_cont Eq a b)
    end; done.
Qed.

Lemma chng_ge_total a b : chng_ge a b = true \/ chng_ge b a = true.
Proof.
  unfold chng_ge. destruct (is_nan b) eqn:Hb; [by left|].
  destruct (is_nan a) eqn:Ha; [by right|]. simpl.
  destruct (leb_total a b Ha Hb); auto.
Qed.

Lemma chng_ge_trans a b c : chng_ge a b = true -> chng_ge b c = true -> chng_ge a c = true.
Proof.
  unfold chng_ge. destruct (is_nan c) eqn:Hc; [done|]. simpl.
  intros Hab Hbc. destruct (leb_not_nan _ _ Hbc) as [_ Hb].
  rewrite Hb in Hab. simpl in Hab. by eapply leb_trans.
Qed.

Lemma latest_first_unfold r1 r2 :
  latest_first r1 r2
  = match date_desc (Date r1) (Date r2) with
    | Lt => true
    | Gt => false
    | Eq => chng_ge (pct_chng r1) (pct_chng r2)
    end.
Proof. unfold latest_first. by rewrite float_desc_not_Gt. Qed.

Lemma latest_first_total r1 r2 : latest_first r1 r2 = true \/ latest_first r2 r1 = true.
Proof.
  rewrite !latest_first_unfold. unfold date_desc.
  destruct (Date r1) as [x|], (Date r2) as [y|]; simpl; auto;
    try apply chng_ge_total.
  destruct (Z.compare_spec y x), (Z.compare_spec x y); auto; try lia.
  apply chng_ge_total.
Qed.

Lemma latest_first_trans r1 r2 r3 :
  latest_first r1 r2 = true -> latest_first r2 r3 = true -> latest_first r1 r3 = true.
Proof.
  rewrite !latest_first_unfold. unfold date_desc.
  destruct (Date r1) as [x|], (Date r2) as [y|], (Date r3) as [z|]; simpl;
    try done; try apply chng_ge_trans.
  destruct (Z.compare_spec y x), (Z.compare_spec z y), (Z.compare_spec z x);
    try done; try lia; apply chng_ge_trans.
Qed.

End LatestOrder.

Section StableSortFacts.
Context {A : Type} (le : A -> A -> bool).
Hypothesis le_total : forall x y, le x y = true \/ le y x = true.
Hypothesis le_trans : forall x y z, le x y = true -> le y z = true -> le x z = true.

Lemma insert_row_sorted x l :
  StronglySorted (fun a b => le a b = true) l ->
  StronglySorted (fun a b => le a b = true) (insert_row le x l).
Proof.
  induction 1 as [|y l Hs IH Hall]; simpl; [repeat constructor|].
  destruct (le x y) eqn:Hxy.
  - constructor; [by constructor|]. constructor; [done|].
    eapply Forall_impl; [exact Hall|]. intros z Hz. by eapply le_trans.
  - constructor; [done|].
    assert (Hyx : le y x = true) by (destruct (le_total x y); congruence).
    rewrite (insert_row_perm le x l). by constructor.
Qed.

Lemma stable_sort_sorted l :
  StronglySorted (fun a b => le a b = true) (stable_sort le l).
Proof.
  unfold stable_sort. induction l as [|x l IH]; simpl; [constructor|].
  by apply insert_row_sorted.
Qed.

End StableSortFacts.

(** A row without a missing cell. *)
Definition complete (r : row) : Prop :=
  is_Some (Date r) /\ F64.is_nan (LTP r) = false /\ F64.is_nan (pct_chng r) = false /\
  is_Some (Sector r) /\ is_Some (Industry r) /\ F64.is_nan (Market_Cap r) = false /\
  F64.is_nan (ROE r) = false /\ F64.is_nan (ROCE r) = false /\
  F64.is_nan (PE_Ratio r) = false /\ F64.is_nan (Book_Value r) = false /\
  F64.is_nan (Dividend_Yield r) = false /\ is_Some (About r).

Section LatestRow.

Lemma first_float_cons x col : F64.is_nan x = false -> first_float (x :: col) = x.
Proof. intros Hx. unfold first_float. by rewrite filter_cons_True. Qed.

Lemma first_some_cons {A} (x : option A) col : is_Some x -> first_some (x :: col) = x.
Proof. intros Hx. unfold first_some. by rewrite filter_cons_True. Qed.

Lemma group_first_complete r g : complete r -> group_first (Symbol r) (r :: g) = r.
Proof.
  intros (H1 & H2 & H3 & H4 & H5 & H6 & H7 & H8 & H9 & H10 & H11 & H12).
  unfold group_first. rewrite !fmap_cons.
  rewrite !first_float_cons, !first_some_cons by done. by destruct r.
Qed.

Lemma latest_first_refl r : latest_first r r = true.
Proof. by destruct (latest_first_total r r). Qed.

(** The rows of a symbol, newest first. *)
Definition group_of (s : string) (table : list row) : list row :=
  filter (fun r => Symbol r = s) (stable_sort latest_first table).

Lemma elem_of_group_of s table r : r ∈ group_of s table <-> Symbol r = s /\ r ∈ table.
Proof. unfold group_of. by rewrite list_elem_of_filter, stable_sort_perm. Qed.

Lemma group_of_sorted s table :
  StronglySorted (fun a b => latest_first a b = true) (group_of s table).
Proof.
  eapply StronglySorted_sublist; [apply sublist_filter|].
  apply stable_sort_sorted; [apply latest_first_total|apply latest_first_trans].
Qed.

Lemma latest_data_group s table :
  s ∈ Symbol <$> table ->
  (group_first s (group_of s table), Some (row_count s table)) ∈ latest_data table.
Proof.
  intros Hs. unfold latest_data. apply list_elem_of_fmap.
  exists (group_first s (group_of s table)). split.
  - simpl. by rewrite stock_counts_lookup.
  - unfold groupby_first. apply list_elem_of_fmap. exists s. split; [done|].
    by rewrite elem_of_group_keys, stable_sort_perm.
Qed.

End LatestRow.

(** X1: the result row of a symbol is made of the rows of that symbol put
    newest first: latest date first, larger percent change first among equal
    dates, missing values last.  The first of them is a row of the table
    that no other row of the symbol precedes, and it is the result row
    whenever none of its cells is missing. *)
Theorem latest_row_of_symbol (S : Argsort) (table : list row) (s : string) :
  s ∈ Symbol <$> table ->
  exists newest rest,
    group_of s table = newest :: rest /\
    newest ∈ table /\ Symbol newest = s /\
    (forall r, r ∈ table -> Symbol r = s -> latest_first newest r = true) /\
    (group_first s (newest :: rest), Some (row_count s table))
      ∈ get_latest_stock_data S table /\
    (complete newest ->
     (newest, Some (row_count s table)) ∈ get_latest_stock_data S table).
Proof.
  intros Hs. pose proof (latest_data_group s table Hs) as Hrow.
  apply list_elem_of_fmap in Hs as (r0 & -> & Hr0).
  assert (Hin : r0 ∈ group_of (Symbol r0) table) by (by apply elem_of_group_of).
  pose proof (group_of_sorted (Symbol r0) table) as Hsorted.
  destruct (group_of (Symbol r0) table) as [|newest rest] eqn:Hg.
  { by apply elem_of_nil in Hin. }
  assert (Hnew : newest ∈ group_of (Symbol r0) table) by (rewrite Hg; left).
  apply elem_of_group_of in Hnew as [Hsym Hnew].
  exists newest, rest. split; [done|]. split; [done|]. split; [done|].
  apply StronglySorted_cons in Hsorted as [Hall _]. rewrite Forall_forall in Hall.
  split; [|split].
  - intros r Hr Hrs.
    assert (Hrg : r ∈ newest :: rest) by (rewrite <- Hg; by apply elem_of_group_of).
    apply elem_of_cons in Hrg as [->|Hrg]; [apply latest_first_refl|by apply Hall].
  - by apply elem_of_get_latest.
  - intros Hc. apply elem_of_get_latest.
    rewrite <- Hsym, group_first_complete in Hrow by done. by rewrite <- Hsym.
Qed.

Lemma latest_row_of_symbol_witness :
  exists newest rest,
    group_of "TCS" highs_example = newest :: rest /\
    newest ∈ highs_example /\ Symbol newest = "TCS" /\
    (forall r, r ∈ highs_example -> Symbol r = "TCS" -> latest_first newest r = true) /\
    (group_first "TCS" (newest :: rest), Some (row_count "TCS" highs_example))
      ∈ get_latest_stock_data stable_argsort highs_example /\
    (complete newest ->
     (newest, Some (row_count "TCS" highs_example))
       ∈ get_latest_stock_data stable_argsort highs_example).
Proof.
  apply (latest_row_of_symbol stable_argsort highs_example "TCS").
  apply (bool_decide_unpack _). by vm_compute.
Defined.


(** C5: every row of the result carries the number of rows its symbol has
    in the input table; every symbol of the table has exactly one row in
    the result; and permuting the input changes no symbol's count. *)
Theorem latest_count_is_row_count (S : Argsort) (table : list row) :
  (forall r c, (r, c) ∈ get_latest_stock_data S table ->
     c = Some (row_count (Symbol r) table)) /\
  (forall s, s ∈ Symbol <$> table ->
     exists r, (r, Some (row_count s table)) ∈ get_latest_stock_data S table /\ Symbol r = s) /\
  NoDup (Symbol <$> (get_latest_stock_data S table).*1) /\
  (forall table', table' ≡ₚ table -> forall s c,
     (exists r, (r, c) ∈ get_latest_stock_data S table' /\ Symbol r = s) <->
     (exists r, (r, c) ∈ get_latest_stock_data S table /\ Symbol r = s)).
Proof.
  split; [|split; [|split]].
  - intros r c Hrc%elem_of_get_latest. by apply elem_of_latest_data in Hrc as [_ ->].
  - intros s Hs. apply latest_pairs. done.
  - unfold get_latest_stock_data. rewrite sort_values_perm, latest_data_symbols.
    apply NoDup_group_keys.
  - intros table' Hp s c. rewrite !latest_pairs. unfold row_count. by rewrite Hp.
Qed.

Lemma latest_count_is_row_count_witness :
  exists r, (r, Some 5%nat) ∈ get_latest_stock_data stable_argsort highs_example /\
            Symbol r = "TCS".
Proof.
  refine (proj1 (proj2 (latest_count_is_row_count stable_argsort highs_example)) "TCS" _).
  apply (bool_decide_unpack _). by vm_compute.
Defined.

(** How many rows a result row counts, zero standing for a missing count. *)
Definition count_of (rc : row * option nat) : nat := default 0%nat rc.2.




(** The contract of the default sort alone does not keep the rows of equal
    count in place: a sort that meets it can reverse two of them. *)
Lemma unstable_sort_moves_ties :
  latest_data [priced "A" 1 10; priced "B" 1 10]
    = [(priced "A" 1 10, Some 1%nat); (priced "B" 1 10, Some 1%nat)] /\
  get_latest_stock_data reversing_argsort [priced "A" 1 10; priced "B" 1 10]
    = [(priced "B" 1 10, Some 1%nat); (priced "A" 1 10, Some 1%nat)] /\
  ~ keeps_tie_order count_key
      (latest_data [priced "A" 1 10; priced "B" 1 10])
      (get_latest_stock_data reversing_argsort [priced "A" 1 10; priced "B" 1 10]).
Proof.
  assert (H1 : latest_data [priced "A" 1 10; priced "B" 1 10]
    = [(priced "A" 1 10, Some 1%nat); (priced "B" 1 10, Some 1%nat)]) by (by vm_compute).
  assert (H2 : get_latest_stock_data reversing_argsort [priced "A" 1 10; priced "B" 1 10]
    = [(priced "B" 1 10, Some 1%nat); (priced "A" 1 10, Some 1%nat)]) by (by vm_compute).
  split; [done|]. split; [done|].
  rewrite H1, H2. intros Hk. specialize (Hk (Some 1)). by vm_compute in Hk.
Qed.

(** C9: an empty table gives an empty result, and nothing is raised. *)
Theorem latest_of_empty_table (S : Argsort) : get_latest_stock_data S [] = [].
Proof. unfold get_latest_stock_data. apply sort_values_nil. Qed.

(** C2 at a failing input: two rows of one symbol, the newer one without
    a percent change.  The result row takes its date and price from the
    newer row and its percent change from the older one, so it is neither
    row of the table. *)
Theorem latest_mixes_rows (S : Argsort) :
  get_latest_stock_data S
    [ mk_row "TCS" (Some 1) (F64.of_Z 90) (F64.of_Z 5);
      mk_row "TCS" (Some 2) (F64.of_Z 100) F64.nan ]
  = [ (mk_row "TCS" (Some 2) (F64.of_Z 100) (F64.of_Z 5), Some 2%nat) ] /\
  mk_row "TCS" (Some 2) (F64.of_Z 100) (F64.of_Z 5)
    <> mk_row "TCS" (Some 2) (F64.of_Z 100) F64.nan.
Proof.
  split; [|by vm_compute].
  unfold get_latest_stock_data.
  assert (Hl : latest_data
    [ mk_row "TCS" (Some 1) (F64.of_Z 90) (F64.of_Z 5);
      mk_row "TCS" (Some 2) (F64.of_Z 100) F64.nan ]
    = [ (mk_row "TCS" (Some 2) (F64.of_Z 100) (F64.of_Z 5), Some 2%nat) ])
    by (by vm_compute).
  rewrite Hl. apply sort_values_singleton.
Qed.

(** ** The claims about the market-cap field *)

Section StringFacts.
Import Str.

(** Every byte of [s] satisfies [P]. *)
Fixpoint all_bytes (P : ascii -> bool) (s : string) : bool :=
  match s with
  | EmptyString => true
  | String c s' => P c && all_bytes P s'
  end.

Definition all_digits (s : string) : bool := all_bytes is_digit s.


Lemma all_bytes_app P s t : all_bytes P (s +:+ t) = all_bytes P s && all_bytes P t.
Proof. induction s as [|c s IH]; simpl; [done|]. by rewrite IH, andb_assoc. Qed.











End StringFacts.

(** A numeric parser for plain decimals (digits, then optionally a dot and
    digits): the quotient of the digits read as an integer by the power of
    ten of the fraction.  It stands for [pd.to_numeric] where a theorem is
    instantiated. *)
Fixpoint digits_value (acc : Z) (s : string) : Z :=
  match s with
  | EmptyString => acc
  | String c s' => digits_value (10 * acc + (Z.of_nat (nat_of_ascii c) - 48)) s'
  end.

Definition plain_decimal (s : string) : option F64.float :=
  match Str.span_digits s with
  | (EmptyString, _) => None
  | (d, EmptyString) => Some (F64.of_Z (digits_value 0 d))
  | (d, String c f) =>
      if decide (c = "."%char) then
        if all_digits f && negb (bool_decide (f = "")) then
          Some (F64.div (F64.of_Z (digits_value 0 (d +:+ f)))
                        (F64.of_Z (10 ^ Z.of_nat (String.length f))))
        else None
      else None
  end.

(** The text [parse_market_cap] searches: the field without the source's
    currency literal and without commas. *)
Definition market_cap_text (s : string) : string :=
  Str.replace "," "" (Str.replace glyph "" s).




(** The market-cap field as the specification parses it: the rupee sign
    U+20B9 and the commas are removed, and the first numeric substring of
    what is left is extracted and parsed; a field without one is missing. *)
Definition spec_market_cap_text (s : string) : string :=
  Str.replace "," "" (Str.replace rupee_sign "" s).

Definition spec_parse_market_cap (to_numeric : string -> option F64.float)
    (s : string) : F64.float :=
  match Str.search_number (spec_market_cap_text s) with
  | Some number => to_numeric_coerce to_numeric number
  | None => F64.nan
  end.

(** C8 at a failing input, the field "12₹34".  The literal line 122
    removes is the source's mis-encoded one, which the field does not
    hold, so the rupee sign stays where it is and ends the first numeric
    substring: the code parses "12".  The procedure of the claim removes
    the sign first and parses "1234".  On the example of the claim,
    "₹1,234.5Cr", the sign stands in front, where the search passes over
    it, and both give 1234.5. *)
Theorem market_cap_rupee_inside :
  market_cap_text "12₹34" = "12₹34" /\
  spec_market_cap_text "12₹34" = "1234" /\
  (forall to_numeric,
     parse_market_cap to_numeric "12₹34" = to_numeric_coerce to_numeric "12") /\
  (forall to_numeric,
     spec_parse_market_cap to_numeric "12₹34" = to_numeric_coerce to_numeric "1234") /\
  parse_market_cap plain_decimal "12₹34" = F64.of_Z 12 /\
  spec_parse_market_cap plain_decimal "12₹34" = F64.of_Z 1234 /\
  F64.eqb (F64.of_Z 12) (F64.of_Z 1234) = false /\
  parse_market_cap plain_decimal "₹1,234.5Cr" = F64.of_dyadic 2469 (-1) /\
  spec_parse_market_cap plain_decimal "₹1,234.5Cr" = F64.of_dyadic 2469 (-1).
Proof.
  assert (Hcode : Str.search_number (market_cap_text "12₹34") = Some "12")
    by (by vm_compute).
  assert (Hspec : Str.search_number (spec_market_cap_text "12₹34") = Some "1234")
    by (by vm_compute).
  split; [by vm_compute|]. split; [by vm_compute|].
  split; [intros f; unfold parse_market_cap; fold (market_cap_text "12₹34");
          by rewrite Hcode|].
  split; [intros f; unfold spec_parse_market_cap; by rewrite Hspec|].
  repeat split; by vm_compute.
Qed.

(** ** The claims about [load_data] *)

(** The columns the loader indexes without asking whether they exist
    (lines 108, 111, 122 and 126). *)
Definition indexed_columns : list string :=
  ["Today's Date"; "%chng"; "Market Cap"; "Symbol"].

(** The columns section 6 of the specification lists as required. *)
Definition spec_required_columns : list string :=
  ["Today's Date"; "Symbol"; "LTP"; "%chng"; "Sector"; "Industry"; "Market Cap";
   "ROE"; "ROCE"; "P/E Ratio"; "Book Value"; "Dividend Yield"; "About"].

(** The load failed: an error was shown and the empty frame returned. *)
Definition load_failed (out : list st_call * DataFrame) : Prop :=
  exists e, out = ([st_error e], ∅).

Section LoaderFacts.
Variable read_csv : string -> result DataFrame.
Variable to_datetime : list cell -> result (list (option Z)).
Variable to_numeric : string -> option F64.float.
Variable repr : cell -> option string.
Variable str_upper : string -> string.

Local Abbreviation try_load := (load_data_try read_csv to_datetime to_numeric repr str_upper).
Local Abbreviation load := (load_data read_csv to_datetime to_numeric repr str_upper).
Local Abbreviation clean_column := (clean_ratio_column to_numeric repr).

Definition ratio_cells (cells : list cell) : list cell :=
  numeric_cell repr (parse_ratio to_numeric) <$> cells.
Definition percent_cells (cells : list cell) : list cell :=
  numeric_cell repr (parse_percent to_numeric) <$> cells.
Definition market_cap_cells (cells : list cell) : list cell :=
  numeric_cell repr (parse_market_cap to_numeric) <$> cells.
Definition symbol_cells (cells : list cell) : list cell :=
  clean_symbol repr str_upper <$> cells.

Lemma clean_ratio_column_lookup (df : DataFrame) col k :
  clean_column df col !! k
  = if decide (col = k) then ratio_cells <$> df !! k else df !! k.
Proof.
  unfold clean_ratio_column. destruct (decide (col = k)) as [->|Hne].
  - destruct (df !! k) as [cells|] eqn:Hk; simpl.
    + by rewrite lookup_insert_eq.
    + by rewrite Hk.
  - destruct (df !! col); [by rewrite lookup_insert_ne|done].
Qed.

Lemma clean_columns_other (cols : list string) (df : DataFrame) k :
  k ∉ cols -> foldl clean_column df cols !! k = df !! k.
Proof.
  revert df. induction cols as [|c cols IH]; intros df Hk; simpl; [done|].
  apply not_elem_of_cons in Hk as [Hne Hk].
  rewrite IH by done. rewrite clean_ratio_column_lookup.
  by rewrite decide_False.
Qed.

Lemma clean_columns_cleaned (cols : list string) (df : DataFrame) k :
  NoDup cols -> k ∈ cols ->
  foldl clean_column df cols !! k = ratio_cells <$> df !! k.
Proof.
  revert df. induction cols as [|c cols IH]; intros df Hnd Hk; simpl.
  { by apply elem_of_nil in Hk. }
  apply NoDup_cons in Hnd as [Hc Hnd].
  apply elem_of_cons in Hk as [->|Hk].
  - rewrite clean_columns_other by done.
    rewrite clean_ratio_column_lookup. by rewrite decide_True.
  - rewrite IH by done. rewrite clean_ratio_column_lookup.
    rewrite decide_False; [done|]. intros ->. done.
Qed.

Lemma NoDup_numeric_columns : NoDup numeric_columns.
Proof. apply (bool_decide_unpack _). by vm_compute. Qed.

Lemma indexed_not_numeric col : col ∈ indexed_columns -> col ∉ numeric_columns.
Proof.
  unfold indexed_columns. rewrite !elem_of_cons, elem_of_nil.
  intros [->|[->|[->|[->|[]]]]]; apply (bool_decide_unpack _); by vm_compute.
Qed.

Lemma numeric_not_indexed col : col ∈ numeric_columns -> col ∉ indexed_columns.
Proof. intros Hn Hi. by apply indexed_not_numeric in Hi. Qed.

(** The frame a successful load returns. *)
Definition loaded_frame (raw : DataFrame) (parsed : list (option Z))
    (chng cap sym : list cell) : DataFrame :=
  <["Symbol" := symbol_cells sym]>
    (<["Market Cap" := market_cap_cells cap]>
       (foldl clean_column
          (<["%chng" := percent_cells chng]> (<["Today's Date" := Time <$> parsed]> raw))
          numeric_columns)).

Lemma load_data_try_inv file :
  match try_load file with
  | inl e =>
      read_csv file = inl e \/
      exists raw, read_csv file = inr raw /\
        ((exists col, col ∈ indexed_columns /\ raw !! col = None /\ e = KeyError col) \/
         (exists dates, raw !! "Today's Date" = Some dates /\ to_datetime dates = inl e))
  | inr df =>
      exists raw dates parsed chng cap sym,
        read_csv file = inr raw /\
        raw !! "Today's Date" = Some dates /\ to_datetime dates = inr parsed /\
        raw !! "%chng" = Some chng /\ raw !! "Market Cap" = Some cap /\
        raw !! "Symbol" = Some sym /\
        df = loaded_frame raw parsed chng cap sym
  end.
Proof.
  unfold load_data_try.
  destruct (read_csv file) as [e|raw] eqn:Hread; cbn [bind]; [by left|].
  unfold getitem at 1.
  destruct (raw !! "Today's Date") as [dates|] eqn:Hdate; cbn [bind ret raise].
  2:{ right. exists raw. split; [done|]. left. exists "Today's Date".
      split; [|done]. apply (bool_decide_unpack _). by vm_compute. }
  destruct (to_datetime dates) as [e|parsed] eqn:Hparse; cbn [bind ret raise].
  { right. exists raw. split; [done|]. right. by exists dates. }
  unfold getitem at 1. rewrite lookup_insert_ne by done.
  destruct (raw !! "%chng") as [chng|] eqn:Hchng; cbn [bind ret raise].
  2:{ right. exists raw. split; [done|]. left. exists "%chng".
      split; [|done]. apply (bool_decide_unpack _). by vm_compute. }
  unfold getitem at 1.
  rewrite clean_columns_other
    by (apply indexed_not_numeric, (bool_decide_unpack _); by vm_compute).
  rewrite !lookup_insert_ne by done.
  destruct (raw !! "Market Cap") as [cap|] eqn:Hcap; cbn [bind ret raise].
  2:{ right. exists raw. split; [done|]. left. exists "Market Cap".
      split; [|done]. apply (bool_decide_unpack _). by vm_compute. }
  unfold getitem at 1. rewrite lookup_insert_ne by done.
  rewrite clean_columns_other
    by (apply indexed_not_numeric, (bool_decide_unpack _); by vm_compute).
  rewrite !lookup_insert_ne by done.
  destruct (raw !! "Symbol") as [sym|] eqn:Hsym; cbn [bind ret raise].
  2:{ right. exists raw. split; [done|]. left. exists "Symbol".
      split; [|done]. apply (bool_decide_unpack _). by vm_compute. }
  by exists raw, dates, parsed, chng, cap, sym.
Qed.

Lemma loaded_frame_lookups raw parsed chng cap sym :
  raw !! "%chng" = Some chng -> raw !! "Market Cap" = Some cap ->
  let df := loaded_frame raw parsed chng cap sym in
  df !! "%chng" = Some (percent_cells chng) /\
  df !! "Market Cap" = Some (market_cap_cells cap) /\
  (forall col, col ∈ numeric_columns -> df !! col = ratio_cells <$> raw !! col).
Proof.
  intros Hchng Hcap df. unfold df, loaded_frame. split; [|split].
  - rewrite !lookup_insert_ne by done.
    rewrite clean_columns_other
      by (apply indexed_not_numeric, (bool_decide_unpack _); by vm_compute).
    by rewrite lookup_insert_eq.
  - rewrite lookup_insert_ne by done. by rewrite lookup_insert_eq.
  - intros col Hcol. pose proof (numeric_not_indexed col Hcol) as Hni.
    unfold indexed_columns in Hni.
    rewrite !not_elem_of_cons in Hni. destruct Hni as (H1 & H2 & H3 & H4 & _).
    rewrite !lookup_insert_ne by done.
    rewrite clean_columns_cleaned by (done || apply NoDup_numeric_columns).
    by rewrite !lookup_insert_ne.
Qed.

(** C4, amended: the load fails, showing an error and returning the empty
    frame, exactly when the file cannot be read, or one of the columns
    Today's Date, %chng, Market Cap and Symbol is absent, or the date
    column does not parse; otherwise it shows no error.  The other columns
    may be absent.  In a loaded frame a percent-change, ratio or market-cap
    cell that does not parse, and a market-cap cell without a numeric
    substring, is NaN, which is not zero. *)
Theorem load_data_fails_iff (file : string) :
  (load_failed (load file) \/ exists df, load file = ([], df)) /\
  (load_failed (load file) <->
     (exists e, read_csv file = inl e) \/
     (exists raw col, read_csv file = inr raw /\ col ∈ indexed_columns /\ raw !! col = None) \/
     (exists raw dates e, read_csv file = inr raw /\
        raw !! "Today's Date" = Some dates /\ to_datetime dates = inl e)) /\
  (forall raw df, read_csv file = inr raw -> load file = ([], df) ->
     (forall cells, raw !! "%chng" = Some cells -> df !! "%chng" = Some (percent_cells cells)) /\
     (forall cells, raw !! "Market Cap" = Some cells ->
        df !! "Market Cap" = Some (market_cap_cells cells)) /\
     (forall col, col ∈ numeric_columns -> df !! col = ratio_cells <$> raw !! col)) /\
  (forall s, to_numeric (Str.strip (Str.replace "%" "" s)) = None ->
     parse_percent to_numeric s = F64.nan) /\
  (forall s, to_numeric (Str.replace glyph "" (Str.replace "%" "" s)) = None ->
     parse_ratio to_numeric s = F64.nan) /\
  (forall s number, Str.search_number (market_cap_text s) = Some number ->
     to_numeric number = None -> parse_market_cap to_numeric s = F64.nan) /\
  (forall s, Str.search_number (market_cap_text s) = None ->
     parse_market_cap to_numeric s = F64.nan) /\
  F64.eqb F64.nan (F64.of_Z 0) = false.
Proof.
  pose proof (load_data_try_inv file) as Hinv. unfold load_data, load_failed.
  split; [|split; [|split; [|split; [|split; [|split; [|split]]]]]].
  - destruct (try_load file) as [e|df]; [left; by exists e|right; by exists df].
  - destruct (try_load file) as [e|df]; split.
    + intros _. destruct Hinv as [Hr|(raw & Hr & [(col & Hc & Hn & _)|(dates & Hd & Hp)])].
      * left. by exists e.
      * right. left. by exists raw, col.
      * right. right. by exists raw, dates, e.
    + intros _. by exists e.
    + by intros [e [=]].
    + destruct Hinv as (raw & dates & parsed & chng & cap & sym
        & Hr & Hd & Hp & Hchng & Hcap & Hsym & _).
      intros [[e He]|[(raw' & col & Hr' & Hc & Hn)|(raw' & dates' & e & Hr' & Hd' & Hp')]];
        rewrite Hr in *; simplify_eq.
      * unfold indexed_columns in Hc. rewrite !elem_of_cons, elem_of_nil in Hc.
        destruct Hc as [->|[->|[->|[->|[]]]]]; congruence.
      * congruence.
  - intros raw df Hr Hload. destruct (try_load file) as [e|df']; [done|].
    destruct Hinv as (raw' & dates & parsed & chng & cap & sym
      & Hr' & Hd & Hp & Hchng & Hcap & Hsym & ->).
    rewrite Hr in Hr'. simplify_eq.
    destruct (loaded_frame_lookups raw' parsed chng cap sym Hchng Hcap) as (H1 & H2 & H3).
    split; [|split]; [| |done].
    + intros cells Hc. rewrite Hchng in Hc. by simplify_eq.
    + intros cells Hc. rewrite Hcap in Hc. by simplify_eq.
  - intros s Hs. unfold parse_percent, to_numeric_coerce. by rewrite Hs.
  - intros s Hs. unfold parse_ratio, to_numeric_coerce. by rewrite Hs.
  - intros s number Hsearch Hs. unfold parse_market_cap.
    fold (market_cap_text s). rewrite Hsearch. unfold to_numeric_coerce. by rewrite Hs.
  - intros s Hsearch. unfold parse_market_cap.
    fold (market_cap_text s). by rewrite Hsearch.
  - done.
Qed.

End LoaderFacts.

Lemma load_data_fails_iff_witness :
  load_failed
    (load_data (fun _ => raise (OtherError "FileNotFoundError"))
       (fun cells => ret ((fun _ => None) <$> cells)) (fun _ => None)
       (fun _ => Some "nan") (fun s => s) "financial_metrics.csv").
Proof.
  refine (proj2 (proj1 (proj2 (load_data_fails_iff _ _ _ _ _ _))) _).
  left. by eexists.
Defined.

(** *** A file without the ratio columns

    Stand-ins for the library at one input: a reader that finds five
    columns and one row, a date parser that accepts every cell, the plain
    decimal parser, and upper-casing of ASCII letters. *)
Definition example_csv : DataFrame :=
  list_to_map
    [ ("Today's Date", [Text "2024-01-01"]); ("Symbol", [Text " tcs "]);
      ("LTP", [Num (F64.of_Z 3900)]); ("%chng", [Text "abc%"]);
      ("Market Cap", [Text "₹1,234.5Cr"]) ].

Definition example_read (path : string) : result DataFrame := ret example_csv.

Definition example_dates (cells : list cell) : result (list (option Z)) :=
  ret ((fun _ => Some 0) <$> cells).

Definition ascii_upper (c : ascii) : ascii :=
  let n := nat_of_ascii c in
  if ((97 <=? n) && (n <=? 122))%nat then ascii_of_nat (n - 32) else c.

Fixpoint upper (s : string) : string :=
  match s with
  | EmptyString => EmptyString
  | String c s' => String (ascii_upper c) (upper s')
  end.

Definition example_load : list st_call * DataFrame :=
  load_data example_read example_dates plain_decimal (fun _ => Some "nan") upper
    "financial_metrics.csv".

(** C4 as stated fails when "required column" is read as section 6 of the
    specification has it: ROE is on that list and absent from the file, and
    the load shows no error and returns the cleaned frame. *)
Lemma load_without_ratio_columns_counterexample :
  "ROE" ∈ spec_required_columns /\
  example_csv !! "ROE" = None /\
  example_load.1 = [] /\
  example_load.2 !! "Symbol" = Some [Text "TCS"] /\
  example_load.2 !! "%chng" = Some [Num F64.nan] /\
  example_load.2 !! "Market Cap" = Some [Num (F64.of_dyadic 2469 (-1))] /\
  ~ load_failed example_load.
Proof.
  assert (H1 : example_load.1 = []) by (by vm_compute).
  split; [apply (bool_decide_unpack _); by vm_compute|].
  split; [by vm_compute|]. split; [done|].
  split; [by vm_compute|]. split; [by vm_compute|]. split; [by vm_compute|].
  intros [e He]. rewrite He in H1. done.
Qed.

(** ** The claims about [format_number] *)

(** C3 at the inputs of the specification: the scale, the two decimals,
    the suffixes and the sentinel are as claimed, and every amount starts
    with the seven bytes of the source's literal, not with the rupee sign. *)
Theorem format_number_examples (float_of_str : string -> option F64.float) :
  format_number float_of_str (PyInt 1000000000) = ret (glyph +:+ "1.00B") /\
  format_number float_of_str (PyInt 50000000) = ret (glyph +:+ "5.00Cr") /\
  format_number float_of_str (PyInt 200000) = ret (glyph +:+ "2.00L") /\
  format_number float_of_str (PyInt 500) = ret (glyph +:+ "500.00") /\
  format_number float_of_str PyNone = ret "N/A" /\
  format_number float_of_str (PyInt 1000000000) <> ret (rupee_sign +:+ "1.00B") /\
  format_number float_of_str (PyInt 50000000) <> ret (rupee_sign +:+ "5.00Cr") /\
  format_number float_of_str (PyInt 200000) <> ret (rupee_sign +:+ "2.00L") /\
  format_number float_of_str (PyInt 500) <> ret (rupee_sign +:+ "500.00").
Proof. repeat split; by vm_compute. Qed.

(** X2: a float that is a number is scaled at the thresholds from the
    largest down, with two decimals each and thousands separators below a
    lakh, after the source's currency literal. *)
Theorem format_number_float (float_of_str : string -> option F64.float) (x : F64.float) :
  F64.is_nan x = false ->
  format_number float_of_str (PyFloat x)
  = ret (if F64.geb x (F64.of_Z (10 ^ 9)) then
           glyph +:+ F64.format_2f false (F64.div x (F64.of_Z (10 ^ 9))) +:+ "B"
         else if F64.geb x (F64.of_Z (10 ^ 7)) then
           glyph +:+ F64.format_2f false (F64.div x (F64.of_Z (10 ^ 7))) +:+ "Cr"
         else if F64.geb x (F64.of_Z (10 ^ 5)) then
           glyph +:+ F64.format_2f false (F64.div x (F64.of_Z (10 ^ 5))) +:+ "L"
         else glyph +:+ F64.format_2f true x).
Proof.
  intros Hx. unfold format_number, format_number_try. simpl. rewrite Hx.
  unfold scale. cbn [bind py_ge py_truediv py_float ret].
  repeat (destruct (F64.geb x _); [done|]). done.
Qed.

Lemma format_number_float_witness :
  format_number plain_decimal (PyFloat (F64.of_dyadic 98765432199 (-3)))
  = ret (glyph +:+ "12.35B").
Proof.
  exact (format_number_float plain_decimal (F64.of_dyadic 98765432199 (-3)) eq_refl).
Defined.

Lemma format_number_missing (float_of_str : string -> option F64.float) :
  format_number float_of_str PyNone = ret "N/A" /\
  format_number float_of_str (PyFloat F64.nan) = ret "N/A".
Proof. split; reflexivity. Qed.

(** ** More about the running highs *)

Section HighsFacts.
Import F64.

Lemma running_highs_nil seen rows :
  Forall (fun q => is_nan q = true) seen ->
  running_highs seen rows = [] <-> Forall (fun r => is_nan (LTP r) = true) rows.
Proof.
  revert seen. induction rows as [|r rows IH]; intros seen Hseen; simpl.
  { split; [constructor|done]. }
  rewrite Forall_cons. destruct (decide (is_peak seen (LTP r))) as [Hpk|Hpk].
  - split; [done|]. intros [Hnan _]. destruct Hpk as [Hp _]. congruence.
  - simpl. assert (Hnan : is_nan (LTP r) = true).
    { destruct (is_nan (LTP r)) eqn:E; [done|]. destruct Hpk. split; [done|].
      eapply Forall_impl; [exact Hseen|]. intros q Hq. congruence. }
    rewrite IH.
    + tauto.
    + apply Forall_app. split; [done|]. by apply Forall_singleton.
Qed.



End HighsFacts.

Lemma get_stock_highs_elem S data symbol r h :
  (r, h) ∈ get_stock_highs S data symbol ->
  r ∈ data /\ Symbol r = symbol /\ symbol <> "" /\ F64.eqb (LTP r) h = true.
Proof.
  unfold get_stock_highs. case_bool_decide as Hs; [|by intros ?%elem_of_nil].
  destruct (empty _); simpl; [by intros ?%elem_of_nil|].
  intros [Heq Hzip]%list_elem_of_filter. simpl in Heq.
  apply elem_of_zip_l in Hzip. rewrite sort_values_perm in Hzip.
  apply list_elem_of_filter in Hzip as [Hsym Hin]. done.
Qed.

(** X3: every row [get_stock_highs] returns is a row of the table that
    carries the symbol asked for, its price is a number and its [High_LTP]
    cell equals its price; and nothing is returned exactly when the symbol
    is the empty string or no row of the symbol has a price that is a
    number. *)
Theorem historical_highs_rows_of_symbol (S : Argsort) (data : list row) (symbol : string) :
  (forall r h, (r, h) ∈ get_stock_highs S data symbol ->
     r ∈ data /\ Symbol r = symbol /\ symbol <> "" /\
     F64.is_nan (LTP r) = false /\ F64.eqb (LTP r) h = true) /\
  (get_stock_highs S data symbol = [] <->
     symbol = "" \/
     Forall (fun r => Symbol r = symbol -> F64.is_nan (LTP r) = true) data).
Proof.
  split.
  - intros r h (Hin & Hsym & Hs & Heq)%get_stock_highs_elem.
    repeat (split; [done|]). split; [|done].
    rewrite eqb_leb in Heq. apply andb_true_iff in Heq as [Hle _].
    by apply leb_not_nan in Hle as [? _].
  - destruct (decide (symbol = "")) as [->|Hs].
    { split; [by left|]. intros _. unfold get_stock_highs.
      by rewrite bool_decide_false by (intros H; by apply H). }
    pose proof (get_stock_highs_rows S data symbol Hs) as Hrows.
    assert (Hnil : get_stock_highs S data symbol = [] <->
                   running_highs [] (sort_values S Date true
                     (filter (fun r => Symbol r = symbol) data)) = []).
    { rewrite <- Hrows. split; [by intros ->|apply fmap_nil_inv]. }
    rewrite Hnil, running_highs_nil by constructor.
    rewrite sort_values_perm. rewrite !Forall_forall. split.
    + intros Hall. right. intros r Hr Hsym. apply Hall. by apply list_elem_of_filter.
    + intros [?|Hall]; [done|]. intros r [Hsym Hr]%list_elem_of_filter. by apply Hall.
Qed.



Lemma NoDup_fmap_inj {A B} (f : A -> B) (l : list A) x y :
  NoDup (f <$> l) -> x ∈ l -> y ∈ l -> f x = f y -> x = y.
Proof.
  induction l as [|z l IH]; intros Hnd Hx Hy Hf; [by apply elem_of_nil in Hx|].
  rewrite fmap_cons in Hnd. apply NoDup_cons in Hnd as [Hz Hnd].
  apply elem_of_cons in Hx as [->|Hx]; apply elem_of_cons in Hy as [->|Hy].
  - done.
  - destruct Hz. rewrite Hf. by apply list_elem_of_fmap_2.
  - destruct Hz. rewrite <- Hf. by apply list_elem_of_fmap_2.
  - by apply IH.
Qed.

Lemma key_le_antisym (a b : option Z) : key_le true a b -> key_le true b a -> a = b.
Proof. destruct a, b; simpl; try done. intros. f_equal. lia. Qed.

(** X5: when the rows of the symbol have pairwise different dates (at most
    one of them missing), the result depends neither on the order of the
    rows in the table nor on the sort behind [sort_values]. *)
Theorem historical_highs_order_independent (S S' : Argsort) (data data' : list row)
    (symbol : string) :
  data ≡ₚ data' ->
  NoDup (Date <$> filter (fun r => Symbol r = symbol) data) ->
  get_stock_highs S data symbol = get_stock_highs S' data' symbol.
Proof.
  intros Hperm Hnd. unfold get_stock_highs. case_bool_decide; [|done].
  set (stock := filter (fun r => Symbol r = symbol) data) in *.
  set (stock' := filter (fun r => Symbol r = symbol) data').
  assert (Hst : stock ≡ₚ stock') by (unfold stock, stock'; by rewrite Hperm).
  assert (Hsorted : sort_values S Date true stock = sort_values S' Date true stock').
  { apply (StronglySorted_unique_strong date_order).
    - intros x y Hx Hy H1 H2. rewrite sort_values_perm in Hx, Hy.
      rewrite <- Hst in Hy. apply (NoDup_fmap_inj Date stock); try done.
      by apply key_le_antisym.
    - apply sort_values_sorted.
    - apply sort_values_sorted.
    - by rewrite !sort_values_perm. }
  rewrite Hsorted. destruct stock as [|x l].
  - apply Permutation_nil in Hst. by rewrite Hst.
  - destruct stock' as [|x' l']; [|done].
    symmetry in Hst. by apply Permutation_nil in Hst.
Qed.

Lemma historical_highs_order_independent_witness :
  get_stock_highs stable_argsort highs_example "TCS"
  = get_stock_highs reversing_argsort (reverse highs_example) "TCS".
Proof.
  apply (historical_highs_order_independent stable_argsort reversing_argsort
           highs_example (reverse highs_example) "TCS").
  - apply (bool_decide_unpack _). by vm_compute.
  - apply (bool_decide_unpack _). by vm_compute.
Defined.

(** ** More about the latest snapshot *)

Section LatestTotals.

Lemma sum_list_with_fmap {A B} (f : B -> nat) (g : A -> B) (l : list A) :
  sum_list_with f (g <$> l) = sum_list_with (f ∘ g) l.
Proof. induction l as [|x l IH]; csimpl; [done|]. by rewrite IH. Qed.

Lemma sum_list_with_ext {A} (f g : A -> nat) (l : list A) :
  (forall x, f x = g x) -> sum_list_with f l = sum_list_with g l.
Proof. intros Hfg. induction l as [|x l IH]; simpl; [done|]. by rewrite Hfg, IH. Qed.

Lemma sum_list_with_add {A} (f g : A -> nat) (l : list A) :
  sum_list_with (fun x => f x + g x)%nat l
  = (sum_list_with f l + sum_list_with g l)%nat.
Proof. induction l as [|x l IH]; simpl; [done|]. rewrite IH. lia. Qed.

Lemma sum_indicator {A} `{EqDecision A} (k : A) (ks : list A) :
  NoDup ks -> k ∈ ks ->
  sum_list_with (fun s => if decide (k = s) then 1 else 0)%nat ks = 1%nat.
Proof.
  induction ks as [|s ks IH]; intros Hnd Hk; [by apply elem_of_nil in Hk|].
  apply NoDup_cons in Hnd as [Hs Hnd]. simpl.
  assert (Hzero : forall l, k ∉ l ->
            sum_list_with (fun s => if decide (k = s) then 1 else 0)%nat l = 0%nat).
  { intros l. induction l as [|y l IHl]; intros Hl; [done|].
    apply not_elem_of_cons in Hl as [Hne Hl]. simpl.
    rewrite decide_False by done. by rewrite IHl. }
  destruct (decide (k = s)) as [->|Hne].
  - by rewrite Hzero.
  - apply elem_of_cons in Hk as [?|Hk]; [done|]. by rewrite IH.
Qed.

(** The elements of a list, counted key by key. *)
Lemma sum_counts {A B} `{EqDecision A} (f : B -> A) (ks : list A) (l : list B) :
  NoDup ks -> (forall r, r ∈ l -> f r ∈ ks) ->
  sum_list_with (fun k => length (filter (fun r => f r = k) l)) ks = length l.
Proof.
  intros Hnd. induction l as [|r t IH]; intros Hin.
  - simpl. clear. induction ks; simpl; [done|]. done.
  - rewrite (sum_list_with_ext _
      (fun k => (if decide (f r = k) then 1 else 0)
                + length (filter (fun r => f r = k) t))%nat).
    2:{ intros k. destruct (decide (f r = k)) as [Heq|Hne].
        - by rewrite filter_cons_True.
        - by rewrite filter_cons_False. }
    rewrite sum_list_with_add, sum_indicator by (done || apply Hin; left).
    rewrite IH; [done|]. intros r' Hr'. apply Hin. by right.
Qed.

Lemma count_of_latest (table : list row) (r : row) :
  count_of (r, value_counts (Symbol <$> table) !! Symbol r)
  = row_count (Symbol r) table.
Proof.
  unfold count_of. simpl. rewrite value_counts_lookup, length_filter_symbol.
  by destruct (row_count _ _).
Qed.

Lemma symbol_column_present (df : list frame_row) :
  omap id (symbol_column df) = Symbol <$> dropna_symbol df.
Proof.
  unfold symbol_column, dropna_symbol.
  induction df as [|fr df IH]; [done|]. csimpl.
  destruct (symbol_isna fr) eqn:Hna; simpl.
  - by rewrite filter_cons_False by congruence.
  - rewrite filter_cons_True by done. csimpl. by rewrite IH.
Qed.

Lemma symbol_column_isna (df : list frame_row) :
  None ∈ symbol_column df <-> exists fr, fr ∈ df /\ symbol_isna fr = true.
Proof.
  unfold symbol_column. rewrite list_elem_of_fmap. split.
  - intros (fr & Hfr & Hin). exists fr. split; [done|]. by destruct (symbol_isna fr).
  - intros (fr & Hin & Hna). exists fr. by rewrite Hna.
Qed.

(** The counts on a table whose rows all have a symbol. *)
Lemma latest_counts_present (S : Argsort) (table : list row) :
  sum_list_with count_of (get_latest_stock_data S table) = length table /\
  length (get_latest_stock_data S table) = length (remove_dups (Symbol <$> table)).
Proof.
  unfold get_latest_stock_data. rewrite !sort_values_perm. split.
  - unfold latest_data, groupby_first. rewrite !sum_list_with_fmap.
    rewrite (sum_list_with_ext _ (fun s => row_count s table)).
    + apply (sum_counts Symbol); [apply NoDup_group_keys|].
      intros r Hr. rewrite elem_of_group_keys, stable_sort_perm.
      by apply list_elem_of_fmap_2.
    + intros s. simpl. apply (count_of_latest table (group_first s _)).
  - unfold latest_data, groupby_first, group_keys. rewrite !length_fmap.
    rewrite merge_sort_Permutation. apply Permutation_length.
    apply NoDup_Permutation; [apply NoDup_remove_dups..|].
    intros s. by rewrite !elem_of_remove_dups, stable_sort_perm.
Qed.

End LatestTotals.

(** X6: on a table whose Symbol cells may be missing, the counts of the
    result add up to the number of rows that have a symbol, the rows
    without one being counted nowhere, and the result has as many rows as
    there are different symbols, the missing one not being one of them. *)
Theorem latest_counts_total (S : Argsort) (df : list frame_row) :
  sum_list_with count_of (get_latest_stock_data_na S df)
  = length (filter (fun fr => symbol_isna fr = false) df) /\
  (sum_list_with count_of (get_latest_stock_data_na S df)
   + length (filter (fun fr => symbol_isna fr = true) df))%nat = length df /\
  length (get_latest_stock_data_na S df)
  = length (remove_dups (omap id (symbol_column df))).
Proof.
  unfold get_latest_stock_data_na.
  destruct (latest_counts_present S (dropna_symbol df)) as [Hsum Hlen].
  rewrite Hsum, Hlen, symbol_column_present.
  assert (Hdrop : length (dropna_symbol df)
                  = length (filter (fun fr => symbol_isna fr = false) df))
    by (unfold dropna_symbol; by rewrite length_fmap).
  rewrite Hdrop. split; [done|]. split; [|done].
  clear. induction df as [|fr df IH]; [done|].
  destruct (symbol_isna fr) eqn:Hna.
  - rewrite filter_cons_False, filter_cons_True by congruence. simpl. lia.
  - rewrite filter_cons_True, filter_cons_False by congruence. simpl. lia.
Qed.

(** Two rows, the second without a symbol: the one result row counts one
    row, and the metric counts two stocks. *)
Lemma missing_symbol_example :
  let df := [ {| frame_cells := priced "TCS" 1 10; symbol_isna := false |};
              {| frame_cells := priced "" 2 20; symbol_isna := true |} ] in
  get_latest_stock_data_na stable_argsort df = [(priced "TCS" 1 10, Some 1%nat)] /\
  total_stocks df = 2%nat.
Proof. split; by vm_compute. Qed.

Section LatestDate.

Lemma first_some_newest (newest : row) (rest : list row) :
  Forall (fun r => latest_first newest r = true) rest ->
  first_some (Date <$> newest :: rest) = Date newest.
Proof.
  intros Hall. rewrite fmap_cons. destruct (Date newest) as [d|] eqn:Hd.
  { by rewrite first_some_cons. }
  unfold first_some. rewrite filter_cons_False by (by intros [? ?]).
  assert (Hnone : filter is_Some (Date <$> rest) = []).
  { induction Hall as [|r rest Hr Hall IH]; [done|]. csimpl.
    rewrite latest_first_unfold, Hd in Hr.
    destruct (Date r) eqn:Hdr; [done|].
    rewrite filter_cons_False by (by intros [? ?]). done. }
  by rewrite Hnone.
Qed.

Lemma latest_first_key_le (r1 r2 : row) :
  latest_first r1 r2 = true -> key_le false (Date r1) (Date r2).
Proof.
  rewrite latest_first_unfold. unfold date_desc.
  destruct (Date r1) as [x|], (Date r2) as [y|]; simpl; try done.
  destruct (Z.compare_spec y x); try done; lia.
Qed.

End LatestDate.

(** X7: the date of a result row is the date of a row of its symbol in the
    table, and no row of the symbol has a later one; it is missing only
    when the symbol has no dated row.  So the date is right even where the
    other cells are mixed from several rows. *)
Theorem latest_date_is_newest (S : Argsort) (table : list row) (r : row) (c : option nat) :
  (r, c) ∈ get_latest_stock_data S table ->
  (exists x, x ∈ table /\ Symbol x = Symbol r /\ Date x = Date r) /\
  (forall x, x ∈ table -> Symbol x = Symbol r -> key_le false (Date r) (Date x)).
Proof.
  rewrite elem_of_get_latest. unfold latest_data, groupby_first.
  intros (r0 & [= -> ->] & (s & -> & Hs)%list_elem_of_fmap)%list_elem_of_fmap.
  fold (group_of s table). simpl.
  rewrite elem_of_group_keys, stable_sort_perm in Hs.
  apply list_elem_of_fmap in Hs as (r0 & -> & Hr0).
  assert (Hin : r0 ∈ group_of (Symbol r0) table) by (by apply elem_of_group_of).
  pose proof (group_of_sorted (Symbol r0) table) as Hsorted.
  destruct (group_of (Symbol r0) table) as [|newest rest] eqn:Hg.
  { by apply elem_of_nil in Hin. }
  apply StronglySorted_cons in Hsorted as [Hall _].
  rewrite first_some_newest by done.
  assert (Hnew : newest ∈ group_of (Symbol r0) table) by (rewrite Hg; left).
  apply elem_of_group_of in Hnew as [Hsym Hnew]. split.
  - by exists newest.
  - intros x Hx Hxs.
    assert (Hxg : x ∈ newest :: rest) by (rewrite <- Hg; by apply elem_of_group_of).
    apply latest_first_key_le.
    apply elem_of_cons in Hxg as [->|Hxg]; [apply latest_first_refl|].
    rewrite Forall_forall in Hall. by apply Hall.
Qed.

Lemma latest_date_is_newest_witness :
  (exists x, x ∈ [ mk_row "TCS" (Some 1) (F64.of_Z 90) (F64.of_Z 5);
                   mk_row "TCS" (Some 2) (F64.of_Z 100) F64.nan ] /\
             Symbol x = "TCS" /\ Date x = Some 2) /\
  (forall x, x ∈ [ mk_row "TCS" (Some 1) (F64.of_Z 90) (F64.of_Z 5);
                   mk_row "TCS" (Some 2) (F64.of_Z 100) F64.nan ] ->
             Symbol x = "TCS" -> key_le false (Some 2) (Date x)).
Proof.
  apply (latest_date_is_newest stable_argsort
           [ mk_row "TCS" (Some 1) (F64.of_Z 90) (F64.of_Z 5);
             mk_row "TCS" (Some 2) (F64.of_Z 100) F64.nan ]
           (mk_row "TCS" (Some 2) (F64.of_Z 100) (F64.of_Z 5)) (Some 2%nat)).
  apply (bool_decide_unpack _). by vm_compute.
Defined.

Section OneSymbol.

Lemma remove_dups_constant {A} `{EqDecision A} (x : A) (l : list A) :
  Forall (fun y => y = x) l -> l <> [] -> remove_dups l = [x].
Proof.
  induction 1 as [|y l -> Hall IH]; intros Hne; [done|]. simpl.
  destruct (decide_rel elem_of x l) as [Hin|Hnin].
  - apply IH. intros ->. by apply elem_of_nil in Hin.
  - destruct Hall as [|z l -> Hall]; [done|]. destruct Hnin. left.
Qed.

Lemma filter_all {A} (P : A -> Prop) `{forall x, Decision (P x)} (l : list A) :
  Forall P l -> filter P l = l.
Proof.
  induction 1 as [|x l Hx Hall IH]; [done|]. by rewrite filter_cons_True, IH.
Qed.

End OneSymbol.

(** X8: on the rows of one symbol, as the search view passes them at line
    392, the result is a single row, built from those rows newest first
    and counted with their number. *)
Theorem latest_of_one_symbol (S : Argsort) (data : list row) (s : string) :
  s ∈ Symbol <$> data ->
  let stock_data := filter (fun r => Symbol r = s) data in
  get_latest_stock_data S stock_data
  = [(group_first s (stable_sort latest_first stock_data), Some (length stock_data))].
Proof.
  intros Hs stock_data.
  assert (Hall : Forall (fun r => Symbol r = s) stock_data).
  { apply Forall_forall. by intros r [? _]%list_elem_of_filter. }
  assert (Hne : stock_data <> []).
  { apply list_elem_of_fmap in Hs as (r & -> & Hr).
    assert (Hin : r ∈ stock_data) by (by apply list_elem_of_filter).
    intros Hnil. rewrite Hnil in Hin. by apply elem_of_nil in Hin. }
  assert (Hkeys : group_keys (stable_sort latest_first stock_data) = [s]).
  { unfold group_keys. rewrite (remove_dups_constant s).
    - done.
    - apply Forall_fmap. rewrite stable_sort_perm. exact Hall.
    - intros Hnil%fmap_nil_inv. apply Hne, Permutation_nil.
      by rewrite <- (stable_sort_perm latest_first stock_data), Hnil. }
  unfold get_latest_stock_data, latest_data, groupby_first. rewrite Hkeys. csimpl.
  rewrite sort_values_singleton. f_equal. f_equal.
  - f_equal. apply filter_all. by rewrite stable_sort_perm.
  - rewrite value_counts_lookup, length_filter_symbol. unfold row_count.
    rewrite (filter_all _ stock_data) by done.
    destruct stock_data; done.
Qed.

Lemma latest_of_one_symbol_witness :
  get_latest_stock_data stable_argsort (filter (fun r => Symbol r = "INFY") highs_example)
  = [(group_first "INFY"
        (stable_sort latest_first (filter (fun r => Symbol r = "INFY") highs_example)),
      Some (length (filter (fun r => Symbol r = "INFY") highs_example)))].
Proof.
  apply (latest_of_one_symbol stable_argsort highs_example "INFY").
  apply (bool_decide_unpack _). by vm_compute.
Defined.

(** ** The latest snapshot and the order of the input *)

Section LatestPermutation.

Lemma group_keys_perm (df df' : list row) : df ≡ₚ df' -> group_keys df = group_keys df'.
Proof.
  intros Hperm. unfold group_keys. apply (Sorted_unique String.le).
  - apply Sorted_merge_sort, _.
  - apply Sorted_merge_sort, _.
  - rewrite !merge_sort_Permutation.
    apply NoDup_Permutation; [apply NoDup_remove_dups..|].
    intros s. by rewrite !elem_of_remove_dups, Hperm.
Qed.

Lemma value_counts_perm (l l' : list string) : l ≡ₚ l' -> value_counts l = value_counts l'.
Proof.
  intros Hperm. apply map_eq. intros s. rewrite !value_counts_lookup. by rewrite Hperm.
Qed.

Lemma latest_first_antisym (r1 r2 : row) :
  latest_first r1 r2 = true -> latest_first r2 r1 = true -> Date r1 = Date r2.
Proof.
  rewrite !latest_first_unfold. unfold date_desc.
  destruct (Date r1) as [x|], (Date r2) as [y|]; simpl; try done.
  destruct (Z.compare_spec y x), (Z.compare_spec x y); try done; try lia.
  intros _ _. by f_equal.
Qed.

End LatestPermutation.

(** X9: when no symbol has two rows with the same date (at most one row
    of a symbol without a date), the result of [get_latest_stock_data] is
    the same for every order of the rows of the table. *)
Theorem latest_order_independent (S : Argsort) (table table' : list row) :
  table ≡ₚ table' ->
  (forall s, s ∈ Symbol <$> table ->
     NoDup (Date <$> filter (fun r => Symbol r = s) table)) ->
  get_latest_stock_data S table = get_latest_stock_data S table'.
Proof.
  intros Hperm Hdates. unfold get_latest_stock_data. f_equal.
  unfold latest_data. rewrite (value_counts_perm _ (Symbol <$> table')) by (by rewrite Hperm).
  f_equal. unfold groupby_first.
  assert (Hsorted : stable_sort latest_first table ≡ₚ stable_sort latest_first table')
    by (by rewrite !stable_sort_perm).
  rewrite <- (group_keys_perm _ _ Hsorted).
  apply list_fmap_ext. intros i s Hs. f_equal.
  apply list_elem_of_lookup_2 in Hs.
  rewrite elem_of_group_keys, stable_sort_perm in Hs.
  apply (StronglySorted_unique_strong (fun a b => latest_first a b = true)).
  - intros r1 r2 [Hs1 Hr1]%list_elem_of_filter [Hs2 Hr2]%list_elem_of_filter H12 H21.
    rewrite stable_sort_perm in Hr1. rewrite stable_sort_perm, <- Hperm in Hr2.
    apply (NoDup_fmap_inj Date (filter (fun r => Symbol r = s) table)).
    + by apply Hdates.
    + by apply list_elem_of_filter.
    + by apply list_elem_of_filter.
    + by apply latest_first_antisym.
  - apply (group_of_sorted s table).
  - apply (group_of_sorted s table').
  - by rewrite Hsorted.
Qed.

Lemma latest_order_independent_witness :
  get_latest_stock_data stable_argsort highs_example
  = get_latest_stock_data stable_argsort (reverse highs_example).
Proof.
  apply (latest_order_independent stable_argsort highs_example (reverse highs_example)).
  - apply (bool_decide_unpack _). by vm_compute.
  - apply Forall_forall. apply (bool_decide_unpack _). by vm_compute.
Defined.

(** ** More about [format_number] *)

(** The text [format_number] hands to [float] when it is given a string. *)
Definition amount_text (s : string) : string :=
  Str.strip (Str.replace "," "" (Str.replace glyph "" s)).

Section FormatterFacts.
Variable float_of_str : string -> option F64.float.

Lemma geb_nan c : F64.geb F64.nan c = false.
Proof. by destruct c as [[]|[]| |[] ? ?]. Qed.

(** On a float the scaling raises nothing. *)
Lemma scale_float x : exists s, scale (PyFloat x) = ret s.
Proof.
  unfold scale, py_truediv. cbn [bind py_ge py_float ret].
  repeat (destruct (F64.geb x _); [by eexists|]). by eexists.
Qed.

Lemma scale_nan : scale (PyFloat F64.nan) = ret (glyph +:+ "nan").
Proof. unfold scale, py_truediv. cbn [bind py_ge py_float ret]. by rewrite !geb_nan. Qed.

(** On an integer it raises exactly when the integer has no float. *)
Lemma scale_int z :
  match float_of_int z with
  | inl e => scale (PyInt z) = raise e
  | inr _ => exists s, scale (PyInt z) = ret s
  end.
Proof.
  unfold scale, py_truediv. cbn [bind py_ge py_float ret].
  destruct (float_of_int z) as [e|x]; cbn [bind ret raise].
  - by repeat (destruct (_ <=? z); [done|]).
  - repeat (destruct (_ <=? z); [by eexists|]). by eexists.
Qed.

Lemma float_of_int_raises z e : float_of_int z = raise e -> e = OverflowError.
Proof. unfold float_of_int. destruct (F64.of_Z z); by intros [=]. Qed.

Lemma format_number_float_returns x : exists s, format_number float_of_str (PyFloat x) = ret s.
Proof.
  unfold format_number, format_number_try. simpl.
  destruct (F64.is_nan x); [by eexists|]. cbn [bind ret].
  destruct (scale_float x) as [s ->]. by eexists.
Qed.

Lemma format_number_str_eq s :
  format_number float_of_str (PyStr s)
  = match float_of_str (amount_text s) with
    | Some x => scale (PyFloat x)
    | None => ret "N/A"
    end.
Proof.
  unfold format_number, format_number_try, amount_text. simpl.
  destruct (float_of_str _) as [x|]; cbn [bind ret raise]; [|done].
  by destruct (scale_float x) as [r ->].
Qed.

End FormatterFacts.

(** X10: [format_number] raises only [OverflowError], and only on an
    integer too large for a float; on [None], a float or a string it
    returns whatever the value. *)
Theorem format_number_raises (float_of_str : string -> option F64.float)
    (num : pyval) (e : exn) :
  format_number float_of_str num = raise e <->
  e = OverflowError /\ exists z, num = PyInt z /\ float_of_int z = raise OverflowError.
Proof.
  split.
  - destruct num as [|z|x|s].
    + done.
    + unfold format_number, format_number_try. simpl. cbn [bind ret].
      pose proof (scale_int z) as Hz.
      destruct (float_of_int z) as [e'|x] eqn:Hf.
      * apply float_of_int_raises in Hf as Heq. subst e'. rewrite Hz.
        intros [= <-]. split; [done|]. by exists z.
      * destruct Hz as [s ->]. done.
    + destruct (format_number_float_returns float_of_str x) as [s ->]. done.
    + rewrite format_number_str_eq. destruct (float_of_str _) as [x|]; [|done].
      destruct (scale_float x) as [r ->]. done.
  - intros [-> (z & -> & Hz)].
    unfold format_number, format_number_try. simpl. cbn [bind ret].
    pose proof (scale_int z) as Hs. rewrite Hz in Hs. by rewrite Hs.
Qed.

(** X11: on a string, [format_number] looks only at the text left when the
    currency literal, the commas and the surrounding white space are
    removed.  A text [float] rejects gives "N/A"; a text that is a number
    gives what the float gives; a text that parses to NaN gives the
    currency literal followed by "nan", where the float NaN gives "N/A". *)
Theorem format_number_str (float_of_str : string -> option F64.float) (s : string) :
  (float_of_str (amount_text s) = None ->
     format_number float_of_str (PyStr s) = ret "N/A") /\
  (forall x, float_of_str (amount_text s) = Some x -> F64.is_nan x = false ->
     format_number float_of_str (PyStr s) = format_number float_of_str (PyFloat x)) /\
  (float_of_str (amount_text s) = Some F64.nan ->
     format_number float_of_str (PyStr s) = ret (glyph +:+ "nan") /\
     format_number float_of_str (PyFloat F64.nan) = ret "N/A") /\
  (forall s', amount_text s' = amount_text s ->
     format_number float_of_str (PyStr s') = format_number float_of_str (PyStr s)).
Proof.
  rewrite format_number_str_eq. split; [|split; [|split]].
  - by intros ->.
  - intros x -> Hx. unfold format_number, format_number_try. simpl. rewrite Hx.
    cbn [bind ret]. by destruct (scale_float x) as [r ->].
  - intros ->. split; [apply scale_nan|done].
  - intros s' Hs'. by rewrite format_number_str_eq, Hs'.
Qed.

(** ** The first bytes of an amount *)

Section AmountFacts.
Variable float_of_str : string -> option F64.float.

Lemma scale_starts_with_glyph num s : scale num = ret s -> exists rest, s = glyph +:+ rest.
Proof.
  unfold scale.
  destruct (py_ge num (10 ^ 9)) as [e|[]]; cbn [bind]; [done| |].
  { destruct (py_truediv num (10 ^ 9)) as [e|x]; cbn [bind ret]; [done|].
    intros [= <-]. by eexists. }
  destruct (py_ge num (10 ^ 7)) as [e|[]]; cbn [bind]; [done| |].
  { destruct (py_truediv num (10 ^ 7)) as [e|x]; cbn [bind ret]; [done|].
    intros [= <-]. by eexists. }
  destruct (py_ge num (10 ^ 5)) as [e|[]]; cbn [bind]; [done| |].
  { destruct (py_truediv num (10 ^ 5)) as [e|x]; cbn [bind ret]; [done|].
    intros [= <-]. by eexists. }
  destruct (py_float num) as [e|x]; cbn [bind ret]; [done|].
  intros [= <-]. by eexists.
Qed.

End AmountFacts.

(** X12: whatever [format_number] returns is "N/A" or starts with the seven
    bytes of the source's currency literal; it never starts with the rupee
    sign U+20B9. *)
Theorem format_number_output (float_of_str : string -> option F64.float)
    (num : pyval) (s : string) :
  format_number float_of_str num = ret s ->
  (s = "N/A" \/ exists rest, s = glyph +:+ rest) /\
  Str.startswith rupee_sign s = false.
Proof.
  intros Hs.
  assert (Hshape : s = "N/A" \/ exists rest, s = glyph +:+ rest).
  { unfold format_number, ret in Hs.
    destruct (format_number_try float_of_str num) as [e|r] eqn:Htry.
    - left. destruct e; first [discriminate|by injection Hs as <-].
    - injection Hs as ->. unfold format_number_try, ret in Htry.
      destruct (pd_isna num); [left; by injection Htry as <-|].
      destruct (parse_if_str float_of_str num) as [e|v]; [done|]. cbn [bind] in Htry.
      right. by eapply scale_starts_with_glyph. }
  split; [done|]. by destruct Hshape as [->|[rest ->]].
Qed.

Lemma format_number_output_witness :
  (glyph +:+ "500.00" = "N/A" \/ exists rest, glyph +:+ "500.00" = glyph +:+ rest) /\
  Str.startswith rupee_sign (glyph +:+ "500.00") = false.
Proof. apply (format_number_output plain_decimal (PyInt 500)). reflexivity. Defined.

(** ** More about [load_data] *)

Section LoaderFrame.
Variable read_csv : string -> result DataFrame.
Variable to_datetime : list cell -> result (list (option Z)).
Variable to_numeric : string -> option F64.float.
Variable repr : cell -> option string.
Variable str_upper : string -> string.

Lemma clean_columns_is_Some (cols : list string) (df : DataFrame) k :
  is_Some (foldl (clean_ratio_column to_numeric repr) df cols !! k) <-> is_Some (df !! k).
Proof.
  revert df. induction cols as [|c cols IH]; intros df; simpl; [done|].
  rewrite IH, clean_ratio_column_lookup.
  destruct (decide (c = k)); [by rewrite fmap_is_Some|done].
Qed.

(** X13: a load that succeeds neither adds nor drops a column; every
    column other than the date, the percent change, the market cap, the
    symbol and the five ratio columns comes back as it was read; in the
    symbol column a cell that held text holds that text stripped and
    upper-cased, and a cell that [astype(str)] leaves missing is still
    missing; the date column holds the parsed dates. *)
Theorem load_data_frame (file : string) (raw df : DataFrame) :
  read_csv file = inr raw ->
  load_data read_csv to_datetime to_numeric repr str_upper file = ([], df) ->
  (forall col, is_Some (df !! col) <-> is_Some (raw !! col)) /\
  (forall col, col ∉ indexed_columns -> col ∉ numeric_columns -> df !! col = raw !! col) /\
  (exists cells out, raw !! "Symbol" = Some cells /\ df !! "Symbol" = Some out /\
     out = symbol_cells repr str_upper cells /\
     (forall i s, cells !! i = Some (Text s) ->
        out !! i = Some (Text (str_upper (Str.strip s)))) /\
     (forall i c, cells !! i = Some c -> astype_str repr c = None ->
        out !! i = Some (Num F64.nan))) /\
  (exists dates parsed, raw !! "Today's Date" = Some dates /\
     to_datetime dates = inr parsed /\ df !! "Today's Date" = Some (Time <$> parsed)).
Proof.
  intros Hr Hload. unfold load_data in Hload.
  pose proof (load_data_try_inv read_csv to_datetime to_numeric repr str_upper file) as Hinv.
  destruct (load_data_try _ _ _ _ _ file) as [e|df']; [done|].
  destruct Hinv as (raw' & dates & parsed & chng & cap & sym
    & Hr' & Hd & Hp & Hchng & Hcap & Hsym & Hdf).
  rewrite Hr in Hr'. simplify_eq. unfold loaded_frame.
  split; [|split; [|split]].
  - intros col.
    destruct (decide (col = "Symbol")) as [->|H1].
    { rewrite lookup_insert_eq, Hsym. split; by eexists. }
    rewrite lookup_insert_ne by done.
    destruct (decide (col = "Market Cap")) as [->|H2].
    { rewrite lookup_insert_eq, Hcap. split; by eexists. }
    rewrite lookup_insert_ne by done. rewrite clean_columns_is_Some.
    destruct (decide (col = "%chng")) as [->|H3].
    { rewrite lookup_insert_eq, Hchng. split; by eexists. }
    rewrite lookup_insert_ne by done.
    destruct (decide (col = "Today's Date")) as [->|H4].
    { rewrite lookup_insert_eq, Hd. split; by eexists. }
    by rewrite lookup_insert_ne.
  - intros col Hi Hn. unfold indexed_columns in Hi.
    rewrite !not_elem_of_cons in Hi. destruct Hi as (H1 & H2 & H3 & H4 & _).
    rewrite !lookup_insert_ne by done. rewrite clean_columns_other by done.
    by rewrite !lookup_insert_ne.
  - exists sym, (symbol_cells repr str_upper sym).
    split; [done|]. split; [by rewrite lookup_insert_eq|]. split; [done|].
    unfold symbol_cells. split.
    + intros i s Hc. by rewrite list_lookup_fmap, Hc.
    + intros i c Hc Hna. rewrite list_lookup_fmap, Hc. simpl.
      unfold clean_symbol. by rewrite Hna.
  - exists dates, parsed. split; [done|]. split; [done|].
    rewrite !lookup_insert_ne by done.
    rewrite clean_columns_other
      by (apply indexed_not_numeric, (bool_decide_unpack _); by vm_compute).
    rewrite lookup_insert_ne by done. by rewrite lookup_insert_eq.
Qed.

End LoaderFrame.

Lemma load_data_frame_witness :
  (forall col, is_Some (example_load.2 !! col) <-> is_Some (example_csv !! col)) /\
  (forall col, col ∉ indexed_columns -> col ∉ numeric_columns ->
     example_load.2 !! col = example_csv !! col) /\
  (exists cells out, example_csv !! "Symbol" = Some cells /\
     example_load.2 !! "Symbol" = Some out /\
     out = symbol_cells (fun _ => Some "nan") upper cells /\
     (forall i s, cells !! i = Some (Text s) ->
        out !! i = Some (Text (upper (Str.strip s)))) /\
     (forall i c, cells !! i = Some c -> astype_str (fun _ => Some "nan") c = None ->
        out !! i = Some (Num F64.nan))) /\
  (exists dates parsed, example_csv !! "Today's Date" = Some dates /\
     example_dates dates = inr parsed /\
     example_load.2 !! "Today's Date" = Some (Time <$> parsed)).
Proof.
  apply (load_data_frame example_read example_dates plain_decimal (fun _ => Some "nan") upper
           "financial_metrics.csv" example_csv example_load.2).
  - reflexivity.
  - change (example_load = ([], example_load.2)).
    rewrite (surjective_pairing example_load) at 1. by f_equal.
Defined.

(** A file of two rows, the second without symbol and market cap.  Where
    [astype(str)] leaves a missing cell missing, the symbol stays missing;
    where it makes it the text "nan", the symbol becomes "NAN".  Either
    way the market cap is NaN. *)
Definition example_csv_na : DataFrame :=
  list_to_map
    [ ("Today's Date", [Text "2024-01-01"; Text "2024-01-02"]);
      ("Symbol", [Text " tcs "; Num F64.nan]);
      ("LTP", [Num (F64.of_Z 3900); Num (F64.of_Z 3950)]);
      ("%chng", [Text "1.5%"; Text "abc%"]);
      ("Market Cap", [Text "₹1,234.5Cr"; Num F64.nan]) ].

Lemma load_missing_symbol_example :
  let load repr :=
    (load_data (fun _ => ret example_csv_na) example_dates plain_decimal repr upper
       "financial_metrics.csv").2 in
  load (fun _ => None) !! "Symbol" = Some [Text "TCS"; Num F64.nan] /\
  load (fun _ => Some "nan") !! "Symbol" = Some [Text "TCS"; Text "NAN"] /\
  load (fun _ => None) !! "Market Cap"
    = Some [Num (F64.of_dyadic 2469 (-1)); Num F64.nan] /\
  load (fun _ => Some "nan") !! "Market Cap"
    = Some [Num (F64.of_dyadic 2469 (-1)); Num F64.nan].
Proof. repeat split; by vm_compute. Qed.

(** ** The currency sign in a ratio cell *)

(** A text of ASCII bytes without a percent sign. *)
Definition plain_text (s : string) : bool :=
  all_bytes (fun c => (nat_of_ascii c <? 128)%nat && negb (bool_decide (c = "%"%char))) s.

Section RatioFacts.
Import Str.

Lemma app_cons c s t : String c s +:+ t = String c (s +:+ t).
Proof. reflexivity. Qed.

(** Nothing is replaced in a text that lacks the first byte of [old]. *)
Lemma replace_absent a old new s :
  all_bytes (fun c => negb (bool_decide (c = a))) s = true ->
  replace (String a old) new s = s.
Proof.
  unfold replace. induction s as [|c s IH]; [done|].
  intros [Hc Hs]%andb_prop. apply negb_true_iff, bool_decide_eq_false in Hc.
  unfold replace_go; fold replace_go. unfold startswith; fold startswith.
  rewrite decide_False by (intros ->; done). by rewrite IH.
Qed.

Lemma all_bytes_impl (P Q : ascii -> bool) s :
  (forall c, P c = true -> Q c = true) -> all_bytes P s = true -> all_bytes Q s = true.
Proof.
  intros HPQ. induction s as [|c s IH]; simpl; [done|].
  intros [Hc Hs]%andb_prop. by rewrite HPQ, IH.
Qed.

Lemma plain_text_lacks a s :
  (128 <=? nat_of_ascii a)%nat || bool_decide (a = "%"%char) = true ->
  plain_text s = true -> all_bytes (fun c => negb (bool_decide (c = a))) s = true.
Proof.
  intros Ha. apply all_bytes_impl. intros c [Hc1 Hc2]%andb_prop.
  apply negb_true_iff. apply bool_decide_eq_false. intros ->.
  apply orb_prop in Ha as [Ha|Ha].
  - apply Nat.ltb_lt in Hc1. apply Nat.leb_le in Ha. lia.
  - by rewrite Ha in Hc2.
Qed.

Lemma replace_percent_plain s : plain_text s = true -> replace "%" "" (s +:+ "%") = s.
Proof.
  unfold replace. induction s as [|c s IH]; [done|].
  intros [Hc Hs]%andb_prop. apply andb_prop in Hc as [_ Hc].
  apply negb_true_iff, bool_decide_eq_false in Hc.
  rewrite app_cons. unfold replace_go; fold replace_go.
  unfold startswith; fold startswith.
  rewrite decide_False by (intros Heq; by apply Hc). by rewrite IH.
Qed.

End RatioFacts.

(** X14: a ratio cell (ROE, ROCE, P/E Ratio, Book Value, Dividend Yield)
    made of the source's currency literal and a plain text, or of a plain
    text and a percent sign, is parsed as the plain text alone.  The rupee
    sign U+20B9 is not that literal: a cell that starts with it reaches the
    numeric parser unchanged, and is missing when the parser rejects it. *)
Theorem ratio_cell_currency (to_numeric : string -> option F64.float) (d : string) :
  plain_text d = true ->
  parse_ratio to_numeric (glyph +:+ d) = to_numeric_coerce to_numeric d /\
  parse_ratio to_numeric (d +:+ "%") = to_numeric_coerce to_numeric d /\
  parse_ratio to_numeric (rupee_sign +:+ d)
    = to_numeric_coerce to_numeric (rupee_sign +:+ d) /\
  (to_numeric (rupee_sign +:+ d) = None ->
   parse_ratio to_numeric (rupee_sign +:+ d) = F64.nan).
Proof.
  intros Hd. unfold parse_ratio.
  assert (Hpct : Str.replace "%" "" d = d).
  { apply replace_absent, plain_text_lacks; [done|done]. }
  assert (Hgl : Str.replace glyph "" d = d).
  { apply replace_absent, plain_text_lacks; [done|done]. }
  assert (H1 : Str.replace glyph "" (Str.replace "%" "" (glyph +:+ d)) = d).
  { unfold glyph at 2. rewrite !app_cons. change ("" +:+ d) with d.
    unfold Str.replace at 2. unfold Str.replace_go; fold Str.replace_go.
    unfold Str.startswith; fold Str.startswith.
    repeat (rewrite decide_False by done).
    fold (Str.replace "%" "" d). rewrite Hpct.
    unfold Str.replace. unfold Str.replace_go; fold Str.replace_go.
    unfold Str.startswith; fold Str.startswith. unfold glyph at 1.
    repeat (rewrite decide_True by done). simpl String.length.
    change ("" +:+ ?x) with x. exact Hgl. }
  assert (H3 : Str.replace glyph "" (Str.replace "%" "" (rupee_sign +:+ d))
               = rupee_sign +:+ d).
  { unfold rupee_sign. rewrite !app_cons. change ("" +:+ d) with d.
    unfold Str.replace at 2. unfold Str.replace_go; fold Str.replace_go.
    unfold Str.startswith; fold Str.startswith.
    repeat (rewrite decide_False by done).
    fold (Str.replace "%" "" d). rewrite Hpct.
    unfold Str.replace. unfold Str.replace_go; fold Str.replace_go.
    unfold Str.startswith; fold Str.startswith. unfold glyph at 1 2 3.
    repeat (rewrite ?decide_True by done; rewrite ?decide_False by done).
    fold glyph. fold (Str.replace glyph "" d). by rewrite Hgl. }
  split; [by rewrite H1|]. split.
  - rewrite replace_percent_plain by done. by rewrite Hgl.
  - rewrite H3. split; [done|]. intros Hnone. unfold to_numeric_coerce. by rewrite Hnone.
Qed.

Lemma ratio_cell_currency_witness :
  parse_ratio plain_decimal (glyph +:+ "250") = to_numeric_coerce plain_decimal "250" /\
  parse_ratio plain_decimal ("250" +:+ "%") = to_numeric_coerce plain_decimal "250" /\
  parse_ratio plain_decimal (rupee_sign +:+ "250")
    = to_numeric_coerce plain_decimal (rupee_sign +:+ "250") /\
  (plain_decimal (rupee_sign +:+ "250") = None ->
   parse_ratio plain_decimal (rupee_sign +:+ "250") = F64.nan).
Proof. apply (ratio_cell_currency plain_decimal "250"). reflexivity. Defined.

(** ** The sector chart and the metrics *)

(** The number of rows of a table that carry a sector. *)
Definition sector_rows (sector : string) (table : list row) : nat :=
  length (filter (fun r => Sector r = Some sector) table).

Section UniqueFacts.
Context {A : Type} `{EqDecision A}.

Lemma elem_of_unique (v : A) (col : list A) : v ∈ unique col <-> v ∈ col.
Proof.
  induction col as [|w col IH]; simpl; [done|].
  rewrite !elem_of_cons, list_elem_of_filter, IH.
  destruct (decide (v = w)); tauto.
Qed.

Lemma NoDup_unique (col : list A) : NoDup (unique col).
Proof.
  induction col as [|w col IH]; simpl; [constructor|].
  apply NoDup_cons. split; [|by apply NoDup_filter].
  by intros [? _]%list_elem_of_filter.
Qed.

Lemma length_unique (col : list A) : length (unique col) = length (remove_dups col).
Proof.
  apply Permutation_length, NoDup_Permutation;
    [apply NoDup_unique|apply NoDup_remove_dups|].
  intros v. by rewrite elem_of_unique, elem_of_remove_dups.
Qed.

End UniqueFacts.

Section ChartFacts.

Lemma length_filter_present (s : string) (table : list row) :
  length (filter (fun v => v = s) (omap id (Sector <$> table))) = sector_rows s table.
Proof.
  unfold sector_rows. induction table as [|r t IH]; [done|]. csimpl.
  destruct (Sector r) as [v|] eqn:Hv; simpl.
  - destruct (decide (v = s)) as [->|Hne].
    + rewrite (filter_cons_True _ r) by done.
      rewrite filter_cons_True by done. simpl. by rewrite IH.
    + rewrite (filter_cons_False _ r) by congruence.
      by rewrite filter_cons_False.
  - by rewrite filter_cons_False by congruence.
Qed.

Lemma length_present (table : list row) :
  length (omap id (Sector <$> table))
  = length (filter (fun r => is_Some (Sector r)) table).
Proof.
  induction table as [|r t IH]; [done|]. csimpl.
  destruct (Sector r) as [v|] eqn:Hv; simpl.
  - rewrite filter_cons_True by (rewrite Hv; by eexists). simpl. by rewrite IH.
  - by rewrite filter_cons_False by (rewrite Hv; by intros [? ?]).
Qed.

Lemma elem_of_present (s : string) (table : list row) :
  s ∈ omap id (Sector <$> table) <-> (0 < sector_rows s table)%nat.
Proof.
  rewrite <- length_filter_present. split.
  - intros Hs. assert (Hin : s ∈ filter (fun v => v = s) (omap id (Sector <$> table)))
      by (by apply list_elem_of_filter).
    destruct (filter _ _); [by apply elem_of_nil in Hin|simpl; lia].
  - intros Hpos. destruct (filter _ _) as [|v l] eqn:Hf; [simpl in Hpos; lia|].
    assert (Hin : v ∈ filter (fun v => v = s) (omap id (Sector <$> table)))
      by (rewrite Hf; left).
    by apply list_elem_of_filter in Hin as [-> ?].
Qed.

(** The bars before they are sorted. *)
Definition sector_tally (table : list row) : list (string * nat) :=
  (fun k => (k, length (filter (fun v => v = k) (omap id (Sector <$> table)))))
    <$> unique (omap id (Sector <$> table)).

Lemma sector_tally_keys table :
  (sector_tally table).*1 = unique (omap id (Sector <$> table)).
Proof. unfold sector_tally. induction (unique _) as [|k l IH]; csimpl; by f_equal. Qed.

Lemma series_value_counts_perm S table :
  series_value_counts S (Sector <$> table) ≡ₚ sector_tally table.
Proof. unfold series_value_counts. apply sort_values_perm. Qed.

Lemma elem_of_sector_tally s n table :
  (s, n) ∈ sector_tally table <-> (0 < n)%nat /\ n = sector_rows s table.
Proof.
  unfold sector_tally. rewrite list_elem_of_fmap. split.
  - intros (k & [= -> ->] & Hk). rewrite length_filter_present.
    split; [|done]. by apply elem_of_present, elem_of_unique.
  - intros [Hpos ->]. exists s. rewrite length_filter_present. split; [done|].
    by apply elem_of_unique, elem_of_present.
Qed.

Lemma length_unique_option (col : list (option string)) :
  length (unique col)
  = (length (unique (omap id col)) + if bool_decide (None ∈ col) then 1 else 0)%nat.
Proof.
  assert (Hperm : unique col ≡ₚ
            (Some <$> unique (omap id col)) ++ if bool_decide (None ∈ col) then [None] else []).
  { apply NoDup_Permutation.
    - apply NoDup_unique.
    - apply NoDup_app. split; [|split].
      + apply NoDup_fmap_2; [apply _|apply NoDup_unique].
      + intros v (k & -> & _)%list_elem_of_fmap. case_bool_decide; [|apply not_elem_of_nil].
        by intros ?%list_elem_of_singleton.
      + case_bool_decide; [apply NoDup_singleton|constructor].
    - intros v. rewrite elem_of_unique, elem_of_app, list_elem_of_fmap.
      setoid_rewrite elem_of_unique. setoid_rewrite list_elem_of_omap.
      destruct v as [k|].
      + split.
        * intros Hk. left. exists k. split; [done|]. by exists (Some k).
        * intros [(k' & [= ->] & (o & Ho & Hk))|Hn]; [simpl in Hk; by subst|].
          case_bool_decide; [by apply list_elem_of_singleton in Hn|by apply elem_of_nil in Hn].
      + split.
        * intros Hn. right. rewrite bool_decide_true by done. left.
        * intros [(k' & [=] & _)|Hn]; case_bool_decide; [done|by apply elem_of_nil in Hn]. }
  rewrite Hperm, length_app, length_fmap. by case_bool_decide.
Qed.

End ChartFacts.

(** X15: the chart has one bar per sector that occurs in the table, each
    sector once and rows without a sector left out; the height of a bar,
    which is also its label, is the number of rows of its sector (not of
    companies: a symbol counts once for each of its rows); the bars stand
    in descending height; and the heights add up to the number of rows
    that have a sector. *)
Theorem sector_chart_bars (S : Argsort) (filtered_data : list row) :
  exists bar,
    Plotly.data (create_sector_chart S filtered_data) = [bar] /\
    Plotly.text bar = Plotly.y bar /\
    NoDup (Plotly.x bar) /\
    (forall s n, (s, n) ∈ zip (Plotly.x bar) (Plotly.y bar) <->
       (0 < n)%nat /\ n = sector_rows s filtered_data) /\
    StronglySorted ge (Plotly.y bar) /\
    sum_list (Plotly.y bar)
      = length (filter (fun r => is_Some (Sector r)) filtered_data).
Proof.
  eexists. split; [reflexivity|]. simpl. split; [done|].
  pose proof (series_value_counts_perm S filtered_data) as Hperm.
  split; [|split; [|split]].
  - rewrite Hperm, sector_tally_keys. apply NoDup_unique.
  - intros s n. rewrite zip_fst_snd, Hperm. apply elem_of_sector_tally.
  - apply (StronglySorted_fmap snd
             (fun a b : string * nat => key_le false (Some (Z.of_nat a.2)) (Some (Z.of_nat b.2)))).
    + intros a b. simpl. lia.
    + apply (sort_values_sorted S (fun kc : string * nat => Some (Z.of_nat kc.2)) false).
  - rewrite <- length_present.
    change (sum_list ?l.*2) with (sum_list (snd <$> l)).
    rewrite sum_list_with_fmap. unfold compose. simpl.
    rewrite Hperm. unfold sector_tally. rewrite sum_list_with_fmap. unfold compose. simpl.
    apply (sum_counts id); [apply NoDup_unique|].
    intros v Hv. by apply elem_of_unique.
Qed.

(** X16: the "Total Stocks" metric of line 480 is the number of rows of
    the latest snapshot, one per card, plus one when some row has no
    symbol; the "Total Sectors" metric of line 482 is the number of bars of
    the sector chart, plus one when some row has no sector.  In both,
    [unique] keeps the missing value, which [groupby] and [value_counts]
    drop. *)
Theorem metrics_match_page (S : Argsort) (filtered_data : list frame_row) :
  total_stocks filtered_data
  = (length (get_latest_stock_data_na S filtered_data)
     + if bool_decide (None ∈ symbol_column filtered_data) then 1 else 0)%nat /\
  total_sectors (frame_cells <$> filtered_data)
  = (length (series_value_counts S (Sector <$> (frame_cells <$> filtered_data)))
     + if bool_decide (None ∈ Sector <$> (frame_cells <$> filtered_data)) then 1 else 0)%nat.
Proof.
  split.
  - unfold total_stocks. rewrite length_unique_option.
    f_equal.
    rewrite length_unique, symbol_column_present.
    unfold get_latest_stock_data_na, get_latest_stock_data. rewrite sort_values_perm.
    unfold latest_data, groupby_first, group_keys. rewrite !length_fmap.
    rewrite merge_sort_Permutation. apply Permutation_length.
    apply NoDup_Permutation; [apply NoDup_remove_dups..|].
    intros s. by rewrite !elem_of_remove_dups, stable_sort_perm.
  - unfold total_sectors. rewrite length_unique_option.
    rewrite series_value_counts_perm. unfold sector_tally. by rewrite length_fmap.
Qed.

(** ** The stock card *)

(** The labels the card indexes, in the order it meets them. *)
Definition card_keys : list string :=
  ["%chng"; "Symbol"; "count"; "Days Since High"; "LTP"].

(** The labels whose cells the card formats as numbers. *)
Definition float_keys : list string :=
  ["%chng"; "LTP"; "Market Cap"; "ROE"; "ROCE"; "P/E Ratio"; "Dividend Yield"].

(** The cells the card formats as numbers are floats, as [load_data]
    leaves them. *)
Definition float_cells (row : Series) : Prop :=
  forall key v, key ∈ float_keys -> row !! key = Some v -> exists x, v = PyFloat x.

(** The first of [keys] that [row] lacks. *)
Fixpoint first_missing (row : Series) (keys : list string) : option string :=
  match keys with
  | [] => None
  | key :: keys' =>
      match row !! key with
      | Some _ => first_missing row keys'
      | None => Some key
      end
  end.

Section CardFacts.
Variable float_of_str : string -> option F64.float.
Variable float_repr : F64.float -> string.

Lemma format_number_str_returns s : exists r, format_number float_of_str (PyStr s) = ret r.
Proof.
  rewrite format_number_str_eq. destruct (float_of_str _) as [x|]; [|by eexists].
  apply scale_float.
Qed.

Lemma percent_display_float x : exists s, percent_display (PyFloat x) = ret s.
Proof. unfold percent_display. simpl. destruct (F64.is_nan x); by eexists. Qed.

Lemma ratio_display_returns (row : Series) key suffix :
  float_cells row -> key ∈ float_keys ->
  exists s, ratio_display row key suffix = ret s.
Proof.
  intros Hfl Hkey. unfold ratio_display, series_get.
  destruct (row !! key) as [v|] eqn:Hv; simpl; [|by eexists].
  destruct (Hfl key v Hkey Hv) as [x ->]. simpl.
  destruct (F64.is_nan x); by eexists.
Qed.

End CardFacts.

(** X17: for a row whose numeric cells are floats, [create_stock_card]
    raises [KeyError] for the first of the labels %chng, Symbol, count,
    Days Since High and LTP that the row lacks, and returns a card when it
    has all five; the other labels may be absent.  No function of the file
    makes a "Days Since High" cell, so a row of [get_latest_stock_data]
    has one only if the input file has such a column. *)
Theorem stock_card_keys (float_of_str : string -> option F64.float)
    (float_repr : F64.float -> string) (row : Series) :
  float_cells row ->
  match first_missing row card_keys with
  | Some key => create_stock_card float_of_str float_repr row = raise (KeyError key)
  | None => exists card, create_stock_card float_of_str float_repr row = ret card
  end.
Proof.
  intros Hfl. unfold create_stock_card, series_getitem, card_keys, first_missing.
  destruct (row !! "%chng") as [chng|] eqn:Hchng; [|done].
  destruct (Hfl "%chng" chng) as [x ->]; [apply (bool_decide_unpack _); by vm_compute|done|].
  cbn [bind ret py_ge].
  destruct (percent_display_float x) as [shown ->]. cbn [bind ret].
  destruct (row !! "Symbol") as [symbol|]; [|done]. cbn [bind ret].
  destruct (row !! "count") as [count|]; [|done]. cbn [bind ret].
  destruct (row !! "Days Since High") as [days|]; [|done]. cbn [bind ret].
  destruct (row !! "LTP") as [ltp|] eqn:Hltp; [|done].
  destruct (Hfl "LTP" ltp) as [p ->]; [apply (bool_decide_unpack _); by vm_compute|done|].
  cbn [bind ret].
  destruct (format_number_float_returns float_of_str p) as [price ->]. cbn [bind ret].
  assert (Hcap : exists cap, format_number float_of_str
            (series_get row "Market Cap" (PyStr "N/A")) = ret cap).
  { unfold series_get. destruct (row !! "Market Cap") as [v|] eqn:Hv; simpl.
    - destruct (Hfl "Market Cap" v) as [c ->];
        [apply (bool_decide_unpack _); by vm_compute|done|].
      apply format_number_float_returns.
    - apply format_number_str_returns. }
  destruct Hcap as [cap ->]. cbn [bind ret].
  destruct (ratio_display_returns row "ROE" "%" Hfl) as [roe ->];
    [apply (bool_decide_unpack _); by vm_compute|].
  cbn [bind ret].
  destruct (ratio_display_returns row "ROCE" "%" Hfl) as [roce ->];
    [apply (bool_decide_unpack _); by vm_compute|].
  cbn [bind ret].
  destruct (ratio_display_returns row "P/E Ratio" "" Hfl) as [pe ->];
    [apply (bool_decide_unpack _); by vm_compute|].
  cbn [bind ret].
  destruct (ratio_display_returns row "Dividend Yield" "%" Hfl) as [dy ->];
    [apply (bool_decide_unpack _); by vm_compute|].
  cbn [bind ret]. by eexists.
Qed.

(** A row of the latest snapshot as the card receives it: the cells of the
    input file that the card reads, and the count. *)
Definition snapshot_series : Series :=
  list_to_map
    [ ("Symbol", PyStr "TCS"); ("LTP", PyFloat (F64.of_Z 3900));
      ("%chng", PyFloat (F64.of_dyadic 5 (-1))); ("Sector", PyStr "IT");
      ("Industry", PyStr "Software"); ("Market Cap", PyFloat (F64.of_Z 1400000));
      ("ROE", PyFloat (F64.of_Z 45)); ("ROCE", PyFloat (F64.of_Z 55));
      ("P/E Ratio", PyFloat (F64.of_Z 30)); ("Book Value", PyFloat (F64.of_Z 250));
      ("Dividend Yield", PyFloat F64.nan); ("About", PyStr "Tata Consultancy Services");
      ("count", PyInt 3) ].

Lemma stock_card_keys_witness :
  create_stock_card plain_decimal (fun _ => "nan") snapshot_series
  = raise (KeyError "Days Since High").
Proof.
  apply (stock_card_keys plain_decimal (fun _ => "nan") snapshot_series).
  intros key v Hkey Hv. unfold float_keys in Hkey.
  rewrite !elem_of_cons, elem_of_nil in Hkey.
  destruct Hkey as [->|[->|[->|[->|[->|[->|[->|[]]]]]]]];
    vm_compute in Hv; injection Hv as <-; by eexists.
Defined.

(** ** The text under "About" *)

Section AboutFacts.

Lemma py_len_app s t : py_len (s +:+ t) = (py_len s + py_len t)%nat.
Proof.
  induction s as [|c s IH]; [done|].
  change (String c s +:+ t) with (String c (s +:+ t)). simpl.
  rewrite IH. by destruct (is_continuation c).
Qed.

Lemma py_len_prefix n s : py_len (py_prefix n s) = (n `min` py_len s)%nat.
Proof.
  revert n. induction s as [|c s IH]; intros n; simpl; [lia|].
  destruct (is_continuation c) eqn:Hc; simpl; rewrite ?Hc.
  - apply IH.
  - destruct n as [|n]; simpl; [done|]. rewrite Hc, IH. lia.
Qed.

Lemma py_prefix_app n s : exists rest, s = py_prefix n s +:+ rest.
Proof.
  revert n. induction s as [|c s IH]; intros n; simpl; [by exists ""|].
  destruct (is_continuation c).
  - destruct (IH n) as [rest Hrest]. exists rest.
    change (String c (py_prefix n s) +:+ rest) with (String c (py_prefix n s +:+ rest)).
    by rewrite <- Hrest.
  - destruct n as [|n]; [by eexists|].
    destruct (IH n) as [rest Hrest]. exists rest.
    change (String c (py_prefix n s) +:+ rest) with (String c (py_prefix n s +:+ rest)).
    by rewrite <- Hrest.
Qed.

End AboutFacts.

(** X18: the text shown under "About" is never longer than 300 code
    points: a text of at most 300 is shown as it is, a longer one is cut to
    its first 297 code points followed by three dots. *)
Theorem about_text_at_most_300 (about_text : pyval) (s : string) :
  shorten about_text = PyStr s ->
  (py_len s <= 300)%nat /\
  ((about_text = PyStr s /\ (forall full, about_text = PyStr full -> (py_len full <= 300)%nat)) \/
   exists full rest,
     about_text = PyStr full /\ (300 < py_len full)%nat /\
     full = py_prefix 297 full +:+ rest /\
     s = py_prefix 297 full +:+ "..." /\
     py_len (py_prefix 297 full) = 297%nat /\ py_len s = 300%nat).
Proof.
  destruct about_text as [| | |full]; try done. simpl.
  destruct (300 <? py_len full)%nat eqn:Hlen.
  - apply Nat.ltb_lt in Hlen. intros [= <-].
    assert (H297 : py_len (py_prefix 297 full) = 297%nat) by (rewrite py_len_prefix; lia).
    assert (H300 : py_len (py_prefix 297 full +:+ "...") = 300%nat).
    { rewrite py_len_app, H297. done. }
    split; [lia|]. right. destruct (py_prefix_app 297 full) as [rest Hrest].
    by exists full, rest.
  - apply Nat.ltb_ge in Hlen. intros [= <-]. split; [done|]. left.
    split; [done|]. by intros ? [= <-].
Qed.

(** A text of [n] rupee signs. *)
Fixpoint rupees (n : nat) : string :=
  match n with
  | O => ""
  | S k => rupee_sign +:+ rupees k
  end.

Lemma about_text_at_most_300_witness :
  (py_len (rupees 297 +:+ "...") <= 300)%nat /\
  ((PyStr (rupees 301) = PyStr (rupees 297 +:+ "...") /\
    (forall full, PyStr (rupees 301) = PyStr full -> (py_len full <= 300)%nat)) \/
   exists full rest,
     PyStr (rupees 301) = PyStr full /\ (300 < py_len full)%nat /\
     full = py_prefix 297 full +:+ rest /\
     rupees 297 +:+ "..." = py_prefix 297 full +:+ "..." /\
     py_len (py_prefix 297 full) = 297%nat /\ py_len (rupees 297 +:+ "...") = 300%nat).
Proof.
  apply (about_text_at_most_300 (PyStr (rupees 301)) (rupees 297 +:+ "...")).
  by vm_compute.
Defined.

(** ** The search view *)

(** The page holds no table. *)
Definition no_dataframe (trace : list st_event) : Prop :=
  Forall (fun ev => match ev with st_dataframe _ => False | _ => True end) trace.

(** A view ends with the outcome [r] and has shown no table. *)
Definition ends {A} (view : ui A) (r : result A) : Prop :=
  view.2 = r /\ no_dataframe view.1.

Section SearchFacts.

Lemma mapM_returns {A B} (f : A -> result B) (l : list A) :
  (forall x, exists y, f x = ret y) -> exists ys, mapM f l = ret ys.
Proof.
  intros Hf. induction l as [|x l [ys IH]]; simpl; [by eexists|].
  destruct (Hf x) as [y ->]. cbn [bind ret]. rewrite IH. by eexists.
Qed.

Lemma ends_emit {B} ev (k : unit -> ui B) r :
  match ev with st_dataframe _ => False | _ => True end ->
  ends (k tt) r -> ends (ui_bind (emit ev) k) r.
Proof.
  intros Hev [Hr Htrace]. unfold ui_bind, emit, ret.
  destruct (k tt) as [trace r']. simpl in *. split; [done|]. by constructor.
Qed.

Lemma ends_lift_ret {A B} (x : A) (k : A -> ui B) r :
  ends (k x) r -> ends (ui_bind (lift (ret x)) k) r.
Proof. unfold ui_bind, lift, ret. by destruct (k x). Qed.

Lemma ends_lift_raise {A B} e (k : A -> ui B) :
  ends (ui_bind (lift (raise e)) k) (raise e).
Proof. split; [done|constructor]. Qed.

End SearchFacts.

(** X19: the search view ends without an exception exactly when
    [get_stock_highs] returns nothing (it then shows a notice).  When there
    are highs to show it raises before the table of highs is displayed:
    [KeyError] for "Today's Date", the label line 352 sorts by after
    selecting the columns Date, LTP and Change, or [ValueError] from
    [strftime] when no returned row has a date.  When there are none the
    page holds one notice: the request for a symbol when the symbol is
    empty, "No data found" otherwise, also for a symbol whose rows all
    lack a price. *)
Theorem search_view_outcome (S : Argsort) (float_of_str : string -> option F64.float)
    (strftime : Z -> string) (sort_frame : DataFrame -> string -> bool -> DataFrame)
    (data : list row) (search_symbol : string) :
  let high_dates := get_stock_highs S data search_symbol in
  let view := search_view S float_of_str strftime sort_frame data search_symbol in
  view.2 = match high_dates with
           | [] => ret tt
           | _ =>
               match date_max ((fun rh => Date rh.1) <$> high_dates) with
               | Some _ => raise (KeyError "Today's Date")
               | None => raise ValueError
               end
           end /\
  no_dataframe view.1 /\
  (high_dates = [] ->
   view.1 = [ if bool_decide (search_symbol = "")
              then st_info "Please enter a stock symbol to view its analysis"
              else st_warning ("No data found for symbol " +:+ search_symbol) ]).
Proof.
  intros high_dates view.
  assert (Hnotice : high_dates = [] ->
            view.1 = [ if bool_decide (search_symbol = "")
                       then st_info "Please enter a stock symbol to view its analysis"
                       else st_warning ("No data found for symbol " +:+ search_symbol) ]).
  { unfold view, search_view. fold high_dates. clear view. clearbody high_dates.
    intros ->. by repeat case_bool_decide. }
  rewrite (and_assoc _ _ _). split; [|done]. clear Hnotice.
  unfold view, search_view. fold high_dates.
  clear view. case_bool_decide as Hs.
  2:{ assert (Hnil : high_dates = []).
      { unfold high_dates, get_stock_highs.
        by rewrite bool_decide_false by (intros H; by apply H). }
      clearbody high_dates. subst high_dates. split; [done|].
      by repeat (constructor; simpl). }
  clearbody high_dates. destruct high_dates as [|rh rest] eqn:Hh; simpl negb; cbv iota.
  { split; [done|]. by repeat (constructor; simpl). }
  rewrite <- Hh. clear Hh.
  destruct (format_number_float_returns float_of_str
              (float_max ((fun rh => LTP rh.1) <$> high_dates))) as [price Hprice].
  destruct (mapM_returns
              (fun rh : row * F64.float => format_number float_of_str (PyFloat (LTP rh.1)))
              high_dates) as [prices Hprices].
  { intros x. apply format_number_float_returns. }
  destruct (mapM_returns
              (fun rh : row * F64.float => percent_display (PyFloat (pct_chng rh.1)))
              high_dates) as [changes Hchanges].
  { intros x. apply percent_display_float. }
  apply ends_emit; [done|]. apply ends_emit; [done|].
  rewrite Hprice. apply ends_lift_ret. apply ends_emit; [done|]. apply ends_emit; [done|].
  unfold timestamp_strftime. destruct (date_max _) as [ns|].
  2:{ apply ends_lift_raise. }
  apply ends_lift_ret. apply ends_emit; [done|]. apply ends_emit; [done|].
  rewrite Hprices. apply ends_lift_ret. rewrite Hchanges. apply ends_lift_ret.
  unfold frame_sort_values. rewrite !lookup_insert_ne by done. rewrite lookup_empty.
  apply ends_lift_raise.
Qed.
